(** * SpeciesCard: the ownership-gated view/edit/delete card

    A shallow embedding of [src/app/species/species-card.tsx]: the zod schema
    [speciesSchema], the local state of the [SpeciesCard] component
    ([open], [openDelete], [isEditing] and the react-hook-form draft), its
    event handlers ([onSubmit], [startEditing], [handleCancel],
    [startDeleting], [handleDeleteCancel]) and the controls its JSX renders.

    The external collaborators appear as a list of effects emitted by a
    handler: the Supabase calls (the DataStore), [router.refresh()] (the
    Navigator) and [toast] (the Notifier). *)

From Stdlib Require Import List Bool NArith ZArith String Ascii Lia.
Import ListNotations.

Set Implicit Arguments.

(** ** JavaScript values *)

Module JS.

(** A JavaScript string is a sequence of UTF-16 code units. *)
Definition jsstring : Type := list N.

(** A string literal of the source, one code unit per ASCII character. *)
Definition lit (s : String.string) : jsstring :=
  List.map N_of_ascii (list_ascii_of_string s).

Definition jsstring_eqb (s t : jsstring) : bool :=
  if list_eq_dec N.eq_dec s t then true else false.

(** ECMAScript WhiteSpace and LineTerminator code points, the characters
    [String.prototype.trim] strips. *)
Definition isWhiteSpace (c : N) : bool :=
  match c with
  | 0x0009 | 0x000A | 0x000B | 0x000C | 0x000D | 0x0020 | 0x00A0
  | 0x1680 | 0x2028 | 0x2029 | 0x202F | 0x205F | 0x3000 | 0xFEFF => true
  | _ => (0x2000 <=? c) && (c <=? 0x200A)
  end%N.

Fixpoint trimStart (s : jsstring) : jsstring :=
  match s with
  | [] => []
  | c :: s' => if isWhiteSpace c then trimStart s' else s
  end.

Fixpoint trimEnd (s : jsstring) : jsstring :=
  match s with
  | [] => []
  | c :: s' =>
      match trimEnd s' with
      | [] => if isWhiteSpace c then [] else [c]
      | t => c :: t
      end
  end.

(** [String.prototype.trim] *)
Definition trim (s : jsstring) : jsstring := trimEnd (trimStart s).

(** [s] is the empty string. *)
Definition isEmpty (s : jsstring) : bool :=
  match s with
  | [] => true
  | _ :: _ => false
  end.

(** The strings the claims call empty or whitespace-only. *)
Definition blank (s : jsstring) : bool := forallb isWhiteSpace s.

(** A JavaScript number: an IEEE double is NaN, an infinity, or the
    dyadic rational [mantissa * 2 ^ exponent]. *)
Inductive number : Type :=
| NaN
| Infinity (negative : bool)
| Finite (mantissa exponent : Z).

Definition zero : number := Finite 0 0.

Definition ofZ (z : Z) : number := Finite z 0.

(** [Number.isInteger] *)
Definition isInteger (n : number) : bool :=
  match n with
  | Finite m e => (0 <=? e)%Z || (m mod 2 ^ (- e) =? 0)%Z
  | _ => false
  end.

(** [n > 0] *)
Definition gt0 (n : number) : bool :=
  match n with
  | NaN => false
  | Infinity negative => negb negative
  | Finite m _ => (0 <? m)%Z
  end.

(** [n >= 1] *)
Definition ge1 (n : number) : bool :=
  match n with
  | NaN => false
  | Infinity negative => negb negative
  | Finite m e =>
      if (0 <=? e)%Z then (1 <=? m)%Z else (2 ^ (- e) <=? m)%Z
  end.

End JS.

Import JS.

(** ** The zod schema *)

(** [kingdoms = z.enum([...])] *)
Inductive kingdoms : Type :=
| Animalia | Plantae | Fungi | Protista | Archaea | Bacteria.

(** The keys of [speciesSchema], in the order of the source. *)
Inductive FieldName : Type :=
| scientific_name_field
| common_name_field
| kingdom_field
| total_population_field
| image_field
| description_field.

Definition FieldName_eq_dec (a b : FieldName) : {a = b} + {a <> b}.
Proof. decide equality. Defined.

(** [SpeciesFormValues = z.infer<typeof speciesSchema>]; at run time the
    same shape holds the draft before it is parsed. [None] is [null]. *)
Record SpeciesFormValues : Type := {
  scientific_name : jsstring;
  common_name : option jsstring;
  kingdom : kingdoms;
  total_population : option number;
  image : option jsstring;
  description : option jsstring
}.

(** The outcome of parsing one key. *)
Inductive parsed (A : Type) : Type :=
| Valid (a : A)
| Invalid.
Arguments Invalid {A}.

(** The transform of [common_name], [image] and [description]: [null]
    when [!val] holds, which it does of [null] and of the empty string, or
    when [val.trim()] is the empty string; [val.trim()] otherwise. *)
Definition nullable_transform (val : option jsstring) : option jsstring :=
  match val with
  | None => None
  | Some s => if isEmpty s || isEmpty (trim s) then None else Some (trim s)
  end.

(** [z.string().trim().min(1).transform((val) => val?.trim())]: the [trim]
    check replaces the input by its trimmed form before [min(1)] sees it. *)
Definition parse_scientific_name (val : jsstring) : parsed jsstring :=
  let trimmed := trim val in
  if (1 <=? List.length trimmed)%nat then Valid (trim trimmed) else Invalid.

(** [z.string().nullable().transform(...)] *)
Definition parse_nullable_text (val : option jsstring)
  : parsed (option jsstring) :=
  Valid (nullable_transform val).

(** [z.number().int().positive().min(1).nullable()]; [z.number()] rejects
    NaN as a value of the wrong type. *)
Definition parse_total_population (val : option number)
  : parsed (option number) :=
  match val with
  | None => Valid None
  | Some NaN => Invalid
  | Some n => if isInteger n && gt0 n && ge1 n then Valid (Some n) else Invalid
  end.

Section Card.

(** The [url] check of zod ([new URL(input)] does not throw) and the
    string-to-number coercion of unary [+] belong to the platform. *)
Variable isURL : jsstring -> bool.
Variable ToNumber : jsstring -> number.

(** [z.string().url().nullable().transform(...)]: the [url] check runs on
    every string, the transform only on a value that passed. *)
Definition parse_image (val : option jsstring) : parsed (option jsstring) :=
  match val with
  | None => Valid (nullable_transform None)
  | Some s => if isURL s then Valid (nullable_transform (Some s)) else Invalid
  end.

(** The key [f] in error, as [zodResolver] reports it to the form: the
    errors of the form are keyed by field, so a key is in error once,
    however many issues zod raised under it (a population of [-5] fails
    both [positive()] and [min(1)]). *)
Definition issue_of (A : Type) (f : FieldName) (p : parsed A)
  : list FieldName :=
  match p with
  | Valid _ => []
  | Invalid => [f]
  end.

Inductive SafeParseReturn : Type :=
| ParseSuccess (data : SpeciesFormValues)
| ParseError (issues : list FieldName).

(** [speciesSchema.safeParse], as [zodResolver(speciesSchema)] runs it:
    every key is parsed and [issues] are the keys in error, in the order
    of the schema. The [kingdom] key is a [z.enum] over the very values of
    its type and has no issue to raise. *)
Definition speciesSchema (v : SpeciesFormValues) : SafeParseReturn :=
  match parse_scientific_name (scientific_name v),
        parse_nullable_text (common_name v),
        parse_total_population (total_population v),
        parse_image (image v),
        parse_nullable_text (description v) with
  | Valid sn, Valid cn, Valid tp, Valid im, Valid de =>
      ParseSuccess {| scientific_name := sn;
                      common_name := cn;
                      kingdom := kingdom v;
                      total_population := tp;
                      image := im;
                      description := de |}
  | sn, cn, tp, im, de =>
      ParseError (issue_of scientific_name_field sn
                  ++ issue_of common_name_field cn
                  ++ issue_of total_population_field tp
                  ++ issue_of image_field im
                  ++ issue_of description_field de)
  end.

(** ** The component *)

(** Modelled from the spec: the row type
    [Species = Database["public"]["Tables"]["species"]["Row"]] is declared
    in [@/lib/schema], which is not among the sources. A record has its
    identifier, its owner ([author]) and the six typed fields that the
    component copies into [defaultValues]. *)
Record Species : Type := {
  id : Z;
  author : jsstring;
  species_scientific_name : jsstring;
  species_common_name : option jsstring;
  species_kingdom : kingdoms;
  species_total_population : option number;
  species_image : option jsstring;
  species_description : option jsstring
}.

(** The props and the local state of one mounted [SpeciesCard]: the three
    [useState] cells and the state of [useForm] (the draft [values] and
    the inline [errors] that [FormMessage] shows). *)
Record Card : Type := {
  species : Species;
  sessionId : jsstring;
  open : bool;
  openDelete : bool;
  isEditing : bool;
  values : SpeciesFormValues;
  errors : list FieldName
}.

Definition defaultValues (sp : Species) : SpeciesFormValues :=
  {| scientific_name := species_scientific_name sp;
     common_name := species_common_name sp;
     kingdom := species_kingdom sp;
     total_population := species_total_population sp;
     image := species_image sp;
     description := species_description sp |}.

(** The state at mount. *)
Definition SpeciesCard (sp : Species) (sid : jsstring) : Card :=
  {| species := sp;
     sessionId := sid;
     open := false;
     openDelete := false;
     isEditing := false;
     values := defaultValues sp;
     errors := [] |}.

Inductive Variant : Type := default | destructive.

Record ToastProps : Type := {
  title : jsstring;
  toast_description : option jsstring;
  variant : Variant
}.

(** What a handler asks of its collaborators, in the order of the calls. *)
Inductive Effect : Type :=
| update (row : Z) (patch : SpeciesFormValues)
| delete (row : Z)
| refresh
| toast (t : ToastProps).

(** The [error] field of a Supabase response. *)
Inductive PostgrestResponse : Type :=
| success
| failure (message : jsstring).

Definition setOpen (b : bool) (c : Card) : Card :=
  {| species := species c; sessionId := sessionId c;
     open := b; openDelete := openDelete c; isEditing := isEditing c;
     values := values c; errors := errors c |}.

Definition setOpenDelete (b : bool) (c : Card) : Card :=
  {| species := species c; sessionId := sessionId c;
     open := open c; openDelete := b; isEditing := isEditing c;
     values := values c; errors := errors c |}.

Definition setIsEditing (b : bool) (c : Card) : Card :=
  {| species := species c; sessionId := sessionId c;
     open := open c; openDelete := openDelete c; isEditing := b;
     values := values c; errors := errors c |}.

(** [form.reset(v)]: the draft becomes [v] and the errors are cleared. *)
Definition form_reset (v : SpeciesFormValues) (c : Card) : Card :=
  {| species := species c; sessionId := sessionId c;
     open := open c; openDelete := openDelete c; isEditing := isEditing c;
     values := v; errors := [] |}.

Definition set_errors (e : list FieldName) (c : Card) : Card :=
  {| species := species c; sessionId := sessionId c;
     open := open c; openDelete := openDelete c; isEditing := isEditing c;
     values := values c; errors := e |}.

(** The parent renders the card again with a freshly fetched row. *)
Definition rerender (sp : Species) (c : Card) : Card :=
  {| species := sp; sessionId := sessionId c;
     open := open c; openDelete := openDelete c; isEditing := isEditing c;
     values := values c; errors := errors c |}.

(** [onSubmit], with the response of the awaited update. *)
Definition onSubmit (data : SpeciesFormValues) (response : PostgrestResponse)
           (c : Card) : Card * list Effect :=
  let request := update (id (species c)) data in
  match response with
  | failure message =>
      (c, [request;
           toast {| title := lit "Something went wrong.";
                    toast_description := Some message;
                    variant := destructive |}])
  | success =>
      (form_reset data (setIsEditing false c),
       [request;
        refresh;
        toast {| title := lit "Profile updated successfully!";
                 toast_description := None;
                 variant := default |}])
  end.

(** [form.handleSubmit(onSubmit)]: the resolver runs first; [onSubmit]
    is called with the parsed data only when there is no issue. *)
Definition handleSubmit (response : PostgrestResponse) (c : Card)
  : Card * list Effect :=
  match speciesSchema (values c) with
  | ParseSuccess data => onSubmit data response (set_errors [] c)
  | ParseError issues => (set_errors issues c, [])
  end.

Definition startEditing (c : Card) : Card * list Effect :=
  (setIsEditing true c, []).

Definition handleCancel (c : Card) : Card * list Effect :=
  (setIsEditing false (form_reset (defaultValues (species c)) c), []).

(** [startDeleting], with the response of the awaited delete, which the
    handler does not read. *)
Definition startDeleting (response : PostgrestResponse) (c : Card)
  : Card * list Effect :=
  (c, [delete (id (species c));
       refresh;
       toast {| title := lit "Species has been deleted!";
                toast_description :=
                  Some (lit "Successfully deleted "
                        ++ species_scientific_name (species c)
                        ++ lit ".");
                variant := default |}]).

Definition handleDeleteCancel (c : Card) : Card * list Effect :=
  (setOpenDelete false c, []).

(** *** The draft *)

Definition set_values (v : SpeciesFormValues) (c : Card) : Card :=
  {| species := species c; sessionId := sessionId c;
     open := open c; openDelete := openDelete c; isEditing := isEditing c;
     values := v; errors := errors c |}.

Definition issues_of (v : SpeciesFormValues) : list FieldName :=
  match speciesSchema v with
  | ParseSuccess _ => []
  | ParseError issues => issues
  end.

(** [mode: "onChange"]: after a change of the field [f] the resolver runs
    and the inline error of [f] alone is brought up to date. *)
Definition revalidate (f : FieldName) (c : Card) : Card :=
  let others := remove FieldName_eq_dec f (errors c) in
  set_errors (if in_dec FieldName_eq_dec f (issues_of (values c))
              then f :: others else others) c.

(** The [onChange] of each form control, on the text of the input or the
    selected item. The population input coerces its text with unary [+]. *)
Inductive Change : Type :=
| change_scientific_name (text : jsstring)
| change_common_name (text : jsstring)
| change_kingdom (item : kingdoms)
| change_total_population (text : jsstring)
| change_image (text : jsstring)
| change_description (text : jsstring).

Definition changed_field (ch : Change) : FieldName :=
  match ch with
  | change_scientific_name _ => scientific_name_field
  | change_common_name _ => common_name_field
  | change_kingdom _ => kingdom_field
  | change_total_population _ => total_population_field
  | change_image _ => image_field
  | change_description _ => description_field
  end.

Definition apply_change (ch : Change) (v : SpeciesFormValues)
  : SpeciesFormValues :=
  match ch with
  | change_scientific_name text =>
      {| scientific_name := text; common_name := common_name v;
         kingdom := kingdom v; total_population := total_population v;
         image := image v; description := description v |}
  | change_common_name text =>
      {| scientific_name := scientific_name v; common_name := Some text;
         kingdom := kingdom v; total_population := total_population v;
         image := image v; description := description v |}
  | change_kingdom item =>
      {| scientific_name := scientific_name v; common_name := common_name v;
         kingdom := item; total_population := total_population v;
         image := image v; description := description v |}
  | change_total_population text =>
      {| scientific_name := scientific_name v; common_name := common_name v;
         kingdom := kingdom v; total_population := Some (ToNumber text);
         image := image v; description := description v |}
  | change_image text =>
      {| scientific_name := scientific_name v; common_name := common_name v;
         kingdom := kingdom v; total_population := total_population v;
         image := Some text; description := description v |}
  | change_description text =>
      {| scientific_name := scientific_name v; common_name := common_name v;
         kingdom := kingdom v; total_population := total_population v;
         image := image v; description := Some text |}
  end.

Definition field_onChange (ch : Change) (c : Card) : Card * list Effect :=
  (revalidate (changed_field ch) (set_values (apply_change ch (values c)) c),
   []).

(** *** What the JSX renders *)

(** [species.author == sessionId] *)
Definition isOwner (c : Card) : bool :=
  jsstring_eqb (author (species c)) (sessionId c).

(** The form lives in the content of the Learn More dialog; its inputs
    are [readOnly] and its select items [disabled] unless [isEditing]. *)
Definition inputs_editable (c : Card) : bool := open c && isEditing c.

(** Update Species (the submit button) and Cancel. *)
Definition edit_buttons_rendered (c : Card) : bool :=
  open c && isOwner c && isEditing c.

(** Edit Species and the delete dialog with its trigger. *)
Definition view_buttons_rendered (c : Card) : bool :=
  open c && isOwner c && negb (isEditing c).

(** Yes, delete and No, cancel, in the content of the delete dialog. *)
Definition delete_buttons_rendered (c : Card) : bool :=
  view_buttons_rendered c && openDelete c.

(** What can happen to a mounted card. A handler that awaits Supabase is
    run to its end in one step, on the response the event carries. *)
Inductive Event : Type :=
| onOpenChange (b : bool)
| onOpenDeleteChange (b : bool)
| input (ch : Change)
| click_edit_species
| click_cancel
| submit_form (response : PostgrestResponse)
| click_yes_delete (response : PostgrestResponse)
| click_no_cancel
| parent_rerender (sp : Species).

(** An event on a control that is not rendered does not happen. *)
Definition guarded (rendered : bool) (k : Card -> Card * list Effect)
           (c : Card) : Card * list Effect :=
  if rendered then k c else (c, []).

Definition step (c : Card) (e : Event) : Card * list Effect :=
  match e with
  | onOpenChange b => (setOpen b c, [])
  | onOpenDeleteChange b =>
      guarded (view_buttons_rendered c) (fun c => (setOpenDelete b c, [])) c
  | input ch => guarded (inputs_editable c) (field_onChange ch) c
  | click_edit_species => guarded (view_buttons_rendered c) startEditing c
  | click_cancel => guarded (edit_buttons_rendered c) handleCancel c
  | submit_form response =>
      guarded (edit_buttons_rendered c) (handleSubmit response) c
  | click_yes_delete response =>
      guarded (delete_buttons_rendered c) (startDeleting response) c
  | click_no_cancel =>
      guarded (delete_buttons_rendered c) handleDeleteCancel c
  | parent_rerender sp => (rerender sp c, [])
  end.

(** A sequence of events, with the effects in the order they were emitted. *)
Fixpoint run (c : Card) (events : list Event) : Card * list Effect :=
  match events with
  | [] => (c, [])
  | e :: events' =>
      let (c1, effects1) := step c e in
      let (c2, effects2) := run c1 events' in
      (c2, effects1 ++ effects2)
  end.

Definition is_refresh (e : Effect) : bool :=
  match e with refresh => true | _ => false end.

Definition is_update (e : Effect) : bool :=
  match e with update _ _ => true | _ => false end.

Definition is_toast (v : Variant) (e : Effect) : bool :=
  match e, v with
  | toast t, default =>
      match variant t with default => true | destructive => false end
  | toast t, destructive =>
      match variant t with default => false | destructive => true end
  | _, _ => false
  end.

Definition count (p : Effect -> bool) (l : list Effect) : nat :=
  List.length (filter p l).

(** Events under which the viewer [sid] stays a stranger to the record:
    every row the parent passes down has another author. *)
Definition not_owned_by (sid : jsstring) (e : Event) : bool :=
  match e with
  | parent_rerender sp => negb (jsstring_eqb (author sp) sid)
  | _ => true
  end.

(** The card of a stranger in its resting state. *)
Definition stranger_viewing (c : Card) : Prop :=
  isOwner c = false /\ isEditing c = false /\ openDelete c = false.

Definition is_cancel (e : Event) : bool :=
  match e with click_cancel => true | _ => false end.

End Card.

(** ** A platform to run the model on

    One choice of the two platform functions, for the examples below: a URL
    is taken to be [http://] or [https://] followed by at least one
    character, and a string is coerced to a number when it is blank or a
    run of decimal digits with an optional minus sign. *)

Module Sample.

Fixpoint startsWith (prefix s : jsstring) : bool :=
  match prefix, s with
  | [], _ => true
  | p :: prefix', c :: s' => (p =? c)%N && startsWith prefix' s'
  | _ :: _, [] => false
  end.

Definition isURL (s : jsstring) : bool :=
  let t := trim s in
  (startsWith (lit "http://") t && (7 <? List.length t)%nat)
  || (startsWith (lit "https://") t && (8 <? List.length t)%nat).

Fixpoint digits (acc : Z) (s : jsstring) : option Z :=
  match s with
  | [] => Some acc
  | c :: s' =>
      if (48 <=? c)%N && (c <=? 57)%N
      then digits (10 * acc + Z.of_N (c - 48)) s'
      else None
  end.

Definition ToNumber (s : jsstring) : number :=
  match trim s with
  | [] => zero
  | 45%N :: ((_ :: _) as t) =>
      match digits 0 t with
      | Some z => ofZ (- z)
      | None => NaN
      end
  | t =>
      match digits 0 t with
      | Some z => ofZ z
      | None => NaN
      end
  end.

(** The record of the scenarios of the specification. *)
Definition guinea_pig : Species :=
  {| id := 7;
     author := lit "u1";
     species_scientific_name := lit "Cavia porcellus";
     species_common_name := Some (lit "Guinea pig");
     species_kingdom := Animalia;
     species_total_population := None;
     species_image := None;
     species_description := None |}.

(** A draft whose common name and description need normalizing, and
    what [speciesSchema] returns for it. *)
Definition felis_draft : SpeciesFormValues :=
  {| scientific_name := lit "Felis catus";
     common_name := Some (lit "  Felis catus  ");
     kingdom := Animalia;
     total_population := Some (ofZ 600000000);
     image := Some (lit "https://example.org/cat.jpg");
     description := Some (lit "   ") |}.

Definition felis_data : SpeciesFormValues :=
  {| scientific_name := lit "Felis catus";
     common_name := Some (lit "Felis catus");
     kingdom := Animalia;
     total_population := Some (ofZ 600000000);
     image := Some (lit "https://example.org/cat.jpg");
     description := None |}.

Definition step := step isURL ToNumber.
Definition run := run isURL ToNumber.

(** The owner's card with the Learn More dialog open. *)
Definition viewing : Card := setOpen true (SpeciesCard guinea_pig (lit "u1")).

(** The same card in edit mode. *)
Definition editing : Card := setIsEditing true viewing.

(** The same card with the delete confirmation open. *)
Definition confirming : Card := setOpenDelete true viewing.

(** Edit mode with the scientific name replaced by blanks. *)
Definition blank_name : Card :=
  fst (step editing (input (change_scientific_name (lit "   ")))).

(** Edit mode with the scientific name of the scenario typed in. *)
Definition aperea : Card :=
  fst (step editing (input (change_scientific_name (lit "  Cavia aperea  ")))).

Definition aperea_data : SpeciesFormValues :=
  {| scientific_name := lit "Cavia aperea";
     common_name := Some (lit "Guinea pig");
     kingdom := Animalia;
     total_population := None;
     image := None;
     description := None |}.

(** Edit mode with the image input cleared. *)
Definition cleared_image : Card :=
  fst (step editing (input (change_image []))).

(** A first session that commits a new name, and a second one that is
    cancelled. *)
Definition first_session : list Event :=
  [click_edit_species;
   input (change_scientific_name (lit "  Cavia aperea  "));
   submit_form success].


(** What a viewer may try on a card. *)
Definition every_control : list Event :=
  [onOpenChange true;
   click_edit_species;
   input (change_scientific_name (lit "Mus musculus"));
   input (change_total_population (lit "12"));
   submit_form success;
   onOpenDeleteChange true;
   click_yes_delete success;
   click_no_cancel;
   click_cancel;
   parent_rerender guinea_pig;
   onOpenChange false].

(** Edit mode with untidy text in three inputs, and what is committed. *)
Definition untidy : Card :=
  fst (run editing
         [input (change_scientific_name (lit "  Cavia aperea  "));
          input (change_common_name (lit " Brazilian guinea pig  "));
          input (change_description (lit "   "))]).

Definition tidy_data : SpeciesFormValues :=
  {| scientific_name := lit "Cavia aperea";
     common_name := Some (lit "Brazilian guinea pig");
     kingdom := Animalia;
     total_population := None;
     image := None;
     description := None |}.

End Sample.

(** ** The rest of the component *)

(** *** The summary above the Learn More button *)

(** [species.description ? species.description.slice(0, 150).trim() + "..."
    : ""]: a string is truthy when it is not empty, and [slice(0, 150)]
    keeps the first 150 code units. *)
Definition description_preview (sp : Species) : jsstring :=
  match species_description sp with
  | None => []
  | Some d => if isEmpty d then [] else trim (firstn 150 d) ++ lit "..."
  end.

(** [species.image && <Image src={species.image} ... />]: the source of the
    image that is rendered, if one is. *)
Definition image_rendered (sp : Species) : option jsstring :=
  match species_image sp with
  | None => None
  | Some src => if isEmpty src then None else Some src
  end.

(** *** The form controls *)

(** [value ?? ""], what the inputs of the nullable keys show. *)
Definition input_value (value : option jsstring) : jsstring :=
  match value with
  | None => []
  | Some s => s
  end.

(** The strings of [z.enum([...])]. *)
Definition kingdom_value (k : kingdoms) : jsstring :=
  match k with
  | Animalia => lit "Animalia"
  | Plantae => lit "Plantae"
  | Fungi => lit "Fungi"
  | Protista => lit "Protista"
  | Archaea => lit "Archaea"
  | Bacteria => lit "Bacteria"
  end.

(** [kingdoms.options], one select item each. *)
Definition kingdoms_options : list kingdoms :=
  [Animalia; Plantae; Fungi; Protista; Archaea; Bacteria].

(** [kingdoms.parse(value)], which throws ([None]) on any other string. *)
Definition kingdoms_parse (value : jsstring) : option kingdoms :=
  find (fun k => jsstring_eqb (kingdom_value k) value) kingdoms_options.

(** [onValueChange] of the select: [field.onChange(kingdoms.parse(value))]. *)
Definition kingdom_onValueChange (value : jsstring) (v : SpeciesFormValues)
  : option SpeciesFormValues :=
  match kingdoms_parse value with
  | Some item =>
      Some {| scientific_name := scientific_name v;
              common_name := common_name v;
              kingdom := item;
              total_population := total_population v;
              image := image v;
              description := description v |}
  | None => None
  end.

(** *** Reading the schema and the effects *)

Definition schema_keys : list FieldName :=
  [scientific_name_field; common_name_field; kingdom_field;
   total_population_field; image_field; description_field].

Definition is_Invalid (A : Type) (p : parsed A) : bool :=
  match p with
  | Valid _ => false
  | Invalid => true
  end.

(** Whether the parser of the key [f] rejects its value in [v]. *)
Definition field_invalid (isURL : jsstring -> bool)
           (v : SpeciesFormValues) (f : FieldName) : bool :=
  match f with
  | scientific_name_field =>
      is_Invalid (parse_scientific_name (scientific_name v))
  | common_name_field => is_Invalid (parse_nullable_text (common_name v))
  | kingdom_field => false
  | total_population_field =>
      is_Invalid (parse_total_population (total_population v))
  | image_field => is_Invalid (parse_image isURL (image v))
  | description_field => is_Invalid (parse_nullable_text (description v))
  end.

(** The number [n] is the integer [k]. *)
Definition is_integer_value (n : number) (k : Z) : Prop :=
  match n with
  | Finite m e => if (0 <=? e)%Z then k = (m * 2 ^ e)%Z
                  else m = (k * 2 ^ (- e))%Z
  | _ => False
  end.

(** A nullable text as the table should hold it: [null], or a string that
    is not blank and has no white space at either end. *)
Definition normalized_text (val : option jsstring) : Prop :=
  match val with
  | None => True
  | Some s => blank s = false /\ trim s = s
  end.

Definition is_delete (e : Effect) : bool :=
  match e with delete _ => true | _ => false end.

Definition is_request (e : Effect) : bool :=
  match e with update _ _ | delete _ => true | _ => false end.

Definition is_any_toast (e : Effect) : bool :=
  match e with toast _ => true | _ => false end.

(** The events that act on a card whose Learn More dialog is closed. *)
Definition acts_when_closed (e : Event) : bool :=
  match e with
  | onOpenChange _ | parent_rerender _ => true
  | _ => false
  end.

Definition is_rerender (e : Event) : bool :=
  match e with parent_rerender _ => true | _ => false end.

(** The inline errors of a card are sound when each is shown once and only
    for a key whose value in the draft is rejected. *)
Definition errors_sound (isURL : jsstring -> bool) (c : Card) : Prop :=
  NoDup (errors c)
  /\ forall f, In f (errors c) -> field_invalid isURL (values c) f = true.

(** A patch as the table should receive it. *)
Definition well_formed_patch (p : SpeciesFormValues) : Prop :=
  blank (scientific_name p) = false
  /\ trim (scientific_name p) = scientific_name p
  /\ normalized_text (common_name p)
  /\ normalized_text (image p)
  /\ normalized_text (description p)
  /\ match total_population p with
     | None => True
     | Some n => exists k : Z, (1 <= k)%Z /\ is_integer_value n k
     end.

(** Requests, toasts and refreshes that add up. *)
Definition balanced (l : list Effect) : Prop :=
  count is_request l = count is_any_toast l
  /\ count is_refresh l = count (is_toast default) l
  /\ count is_any_toast l
     = count (is_toast default) l + count (is_toast destructive) l
  /\ count is_update l + count is_delete l = count is_request l
  /\ count (is_toast destructive) l <= count is_update l.

(** The events whose handler awaits Supabase. *)
Definition awaits_supabase (e : Event) : bool :=
  match e with
  | submit_form _ | click_yes_delete _ => true
  | _ => false
  end.

(** *** What normalized means, said without the code *)

(** [t] is [s] without its leading and trailing white space. *)
Definition trimmed_form (s t : jsstring) : Prop :=
  exists pre post,
    s = pre ++ t ++ post
    /\ blank pre = true
    /\ blank post = true
    /\ (forall c u, t = c :: u -> isWhiteSpace c = false)
    /\ (forall u c, t = u ++ [c] -> isWhiteSpace c = false).

(** [out] is the nullable text [val] normalized: [null] for [null] and for
    an empty or whitespace-only string, the trimmed form otherwise. *)
Definition normalized_from (val out : option jsstring) : Prop :=
  match val with
  | None => out = None
  | Some s =>
      if blank s then out = None
      else exists t, out = Some t /\ trimmed_form s t
  end.

(** ** The handlers around their await

    [onSubmit] and [startDeleting] await Supabase: what follows the await
    runs when the response arrives, on the card as it is by then, and
    other events may come in between. Here the two handlers are cut at
    their await; [step] above is the run in which the response arrives
    before anything else happens. *)

(** What the rest of a handler still holds while its request is in
    flight: the parsed data of [onSubmit], the [species.scientific_name]
    of the render in which [startDeleting] was pressed. *)
Inductive InFlight : Type :=
| awaiting_update (data : SpeciesFormValues)
| awaiting_delete (name : jsstring).

Record Mounted : Type := {
  card : Card;
  in_flight : list InFlight
}.

(** [onSubmit] after its await. *)
Definition onSubmit_resumed (data : SpeciesFormValues)
           (response : PostgrestResponse) (c : Card) : Card * list Effect :=
  match response with
  | failure message =>
      (c, [toast {| title := lit "Something went wrong.";
                    toast_description := Some message;
                    variant := destructive |}])
  | success =>
      (form_reset data (setIsEditing false c),
       [refresh;
        toast {| title := lit "Profile updated successfully!";
                 toast_description := None;
                 variant := default |}])
  end.

(** [startDeleting] after its await. *)
Definition startDeleting_resumed (name : jsstring) (c : Card)
  : Card * list Effect :=
  (c, [refresh;
       toast {| title := lit "Species has been deleted!";
                toast_description :=
                  Some (lit "Successfully deleted " ++ name ++ lit ".");
                variant := default |}]).

Fixpoint remove_nth (A : Type) (i : nat) (l : list A) : list A :=
  match l, i with
  | [], _ => []
  | _ :: l', O => l'
  | x :: l', S i' => x :: remove_nth i' l'
  end.

Section Await.

Variable isURL : jsstring -> bool.
Variable ToNumber : jsstring -> number.

(** What can happen to a mounted card between two awaits. *)
Inductive Happening : Type :=
| at_once (e : Event)
| press_update_species
| press_yes_delete
| answered (i : nat) (response : PostgrestResponse).

(** [form.handleSubmit(onSubmit)] up to the await of [onSubmit]. *)
Definition handleSubmit_started (m : Mounted) : Mounted * list Effect :=
  match speciesSchema isURL (values (card m)) with
  | ParseSuccess data =>
      ({| card := set_errors [] (card m);
          in_flight := in_flight m ++ [awaiting_update data] |},
       [update (id (species (card m))) data])
  | ParseError issues =>
      ({| card := set_errors issues (card m); in_flight := in_flight m |}, [])
  end.

(** [startDeleting] up to its await. *)
Definition startDeleting_started (m : Mounted) : Mounted * list Effect :=
  ({| card := card m;
      in_flight :=
        in_flight m
        ++ [awaiting_delete (species_scientific_name (species (card m)))] |},
   [delete (id (species (card m)))]).

(** The [i]-th request in flight is answered and its handler resumes. *)
Definition resume (i : nat) (response : PostgrestResponse) (m : Mounted)
  : Mounted * list Effect :=
  match nth_error (in_flight m) i with
  | None => (m, [])
  | Some (awaiting_update data) =>
      ({| card := fst (onSubmit_resumed data response (card m));
          in_flight := remove_nth i (in_flight m) |},
       snd (onSubmit_resumed data response (card m)))
  | Some (awaiting_delete name) =>
      ({| card := fst (startDeleting_resumed name (card m));
          in_flight := remove_nth i (in_flight m) |},
       snd (startDeleting_resumed name (card m)))
  end.

Definition happen (m : Mounted) (h : Happening) : Mounted * list Effect :=
  match h with
  | at_once e =>
      ({| card := fst (step isURL ToNumber (card m) e);
          in_flight := in_flight m |},
       snd (step isURL ToNumber (card m) e))
  | press_update_species =>
      if edit_buttons_rendered (card m) then handleSubmit_started m
      else (m, [])
  | press_yes_delete =>
      if delete_buttons_rendered (card m) then startDeleting_started m
      else (m, [])
  | answered i response => resume i response m
  end.

Fixpoint happenings (m : Mounted) (hs : list Happening)
  : Mounted * list Effect :=
  match hs with
  | [] => (m, [])
  | h :: hs' =>
      let (m1, effects1) := happen m h in
      let (m2, effects2) := happenings m1 hs' in
      (m2, effects1 ++ effects2)
  end.

(** The happenings that are not Cancel. *)
Definition not_cancel (h : Happening) : bool :=
  match h with
  | at_once e => negb (is_cancel e)
  | _ => true
  end.

(** What the viewer can do to a card without opening the Learn More
    dialog: everything but opening it; a re-render by the parent and the
    answer to a request are not the viewer's doing. *)
Definition viewer_without_opening (h : Happening) : bool :=
  match h with
  | at_once e => negb (acts_when_closed e)
  | press_update_species | press_yes_delete => true
  | answered _ _ => false
  end.

End Await.

(** An update in flight that will reset the form to a population. *)
Definition carries_population (p : InFlight) : Prop :=
  match p with
  | awaiting_update data => total_population data <> None
  | awaiting_delete _ => True
  end.

(** A draft with a population, and only updates with a population in
    flight. *)
Definition population_kept (m : Mounted) : Prop :=
  total_population (values (card m)) <> None
  /\ Forall carries_population (in_flight m).

(** The sample platform for the handlers cut at their await. *)
Module Interleaved.

Definition happenings := happenings Sample.isURL Sample.ToNumber.

(** The owner's card in edit mode with nothing in flight. *)
Definition editing : Mounted :=
  {| card := Sample.editing; in_flight := [] |}.

(** The same card closed, with an update in flight. *)
Definition closed_while_awaiting : Mounted :=
  fst (happenings editing [press_update_species; at_once (onOpenChange false)]).

End Interleaved.

(** ** Properties of [trim] *)

Section Trim.

Lemma trimStart_blank (s : jsstring) :
  blank s = true -> trimStart s = [].
Proof.
  induction s as [|c s IH]; simpl; [reflexivity|].
  intros H. apply andb_prop in H as [Hc Hs].
  rewrite Hc. auto.
Qed.

Lemma trimStart_head (s : jsstring) :
  blank s = false ->
  exists c t, trimStart s = c :: t /\ isWhiteSpace c = false.
Proof.
  induction s as [|c s IH]; simpl; [discriminate|].
  destruct (isWhiteSpace c) eqn:Hc; simpl.
  - exact IH.
  - intros _. exists c, s. split; [reflexivity | exact Hc].
Qed.

Lemma trimEnd_cons (c : N) (s : jsstring) :
  isWhiteSpace c = false -> trimEnd (c :: s) = c :: trimEnd s.
Proof.
  intros Hc. simpl. rewrite Hc. destruct (trimEnd s); reflexivity.
Qed.

Lemma trimEnd_idempotent (s : jsstring) :
  trimEnd (trimEnd s) = trimEnd s.
Proof.
  induction s as [|c s IH]; [reflexivity|].
  simpl. destruct (trimEnd s) as [|d t] eqn:Ht.
  - destruct (isWhiteSpace c) eqn:Hc; simpl; [reflexivity|].
    rewrite Hc. reflexivity.
  - change (trimEnd (c :: d :: t)) with
      (match trimEnd (d :: t) with
       | [] => if isWhiteSpace c then [] else [c]
       | u => c :: u
       end).
    rewrite IH. reflexivity.
Qed.

Lemma trim_blank (s : jsstring) : blank s = true -> trim s = [].
Proof. intros H. unfold trim. rewrite (trimStart_blank s H). reflexivity. Qed.

Lemma trim_head (s : jsstring) :
  blank s = false ->
  exists c t, trim s = c :: t /\ isWhiteSpace c = false.
Proof.
  intros H. destruct (trimStart_head s H) as (c & t & E & Hc).
  unfold trim. rewrite E, (trimEnd_cons c t Hc).
  exists c, (trimEnd t). split; [reflexivity | exact Hc].
Qed.

Lemma trim_idempotent (s : jsstring) : trim (trim s) = trim s.
Proof.
  destruct (blank s) eqn:H.
  - rewrite (trim_blank s H). reflexivity.
  - destruct (trimStart_head s H) as (c & t & E & Hc).
    unfold trim. rewrite E, (trimEnd_cons c t Hc).
    simpl trimStart. rewrite Hc.
    rewrite <- (trimEnd_cons c t Hc). apply trimEnd_idempotent.
Qed.

Lemma isEmpty_trim (s : jsstring) : isEmpty (trim s) = blank s.
Proof.
  destruct (blank s) eqn:H.
  - rewrite (trim_blank s H). reflexivity.
  - destruct (trim_head s H) as (c & t & E & _). rewrite E. reflexivity.
Qed.

Lemma isEmpty_blank (s : jsstring) : isEmpty s = true -> blank s = true.
Proof. destruct s; [reflexivity | discriminate]. Qed.

(** What [trim] removes is blank, and what it keeps neither starts nor
    ends with a white space character. *)
Lemma trimStart_split (s : jsstring) :
  exists pre, s = pre ++ trimStart s /\ blank pre = true.
Proof.
  induction s as [|c s (pre & E & B)]; simpl.
  - exists []. split; reflexivity.
  - destruct (isWhiteSpace c) eqn:Hc.
    + exists (c :: pre). simpl. rewrite Hc, B. split; [f_equal; exact E | reflexivity].
    + exists []. split; reflexivity.
Qed.

Lemma trimEnd_split (s : jsstring) :
  exists post, s = trimEnd s ++ post /\ blank post = true.
Proof.
  induction s as [|c s (post & E & B)]; simpl.
  - exists []. split; reflexivity.
  - destruct (trimEnd s) as [|d t] eqn:Ht.
    + destruct (isWhiteSpace c) eqn:Hc.
      * exists (c :: post). simpl in *. rewrite Hc, B, <- E. split; reflexivity.
      * exists s. split; [reflexivity|]. simpl in E. rewrite E. exact B.
    + exists post. rewrite E at 1. split; [reflexivity | exact B].
Qed.

Lemma trimEnd_last (s t : jsstring) (c : N) :
  trimEnd s = t ++ [c] -> isWhiteSpace c = false.
Proof.
  revert t. induction s as [|d s IH]; intros t; simpl.
  - destruct t; discriminate.
  - destruct (trimEnd s) as [|e u] eqn:Hs.
    + destruct (isWhiteSpace d) eqn:Hd.
      * destruct t; discriminate.
      * destruct t as [|x [|y t]]; intros H; inversion H; subst. exact Hd.
    + destruct t as [|x t]; intros H; inversion H; subst.
      apply (IH t). assumption.
Qed.

(** [trim] is what ECMAScript says: the string without its leading and
    trailing white space, and what is left has none at either end. *)
Lemma trim_spec (s : jsstring) :
  exists pre post,
    s = pre ++ trim s ++ post
    /\ blank pre = true
    /\ blank post = true
    /\ (forall c t, trim s = c :: t -> isWhiteSpace c = false)
    /\ (forall t c, trim s = t ++ [c] -> isWhiteSpace c = false).
Proof.
  destruct (trimStart_split s) as (pre & E1 & B1).
  destruct (trimEnd_split (trimStart s)) as (post & E2 & B2).
  exists pre, post. unfold trim.
  split; [rewrite <- E2; exact E1|].
  split; [exact B1|]. split; [exact B2|]. split.
  - intros c t H. destruct (blank s) eqn:B.
    + rewrite (trimStart_blank s B) in H. discriminate.
    + destruct (trim_head s B) as (c' & t' & E & Hc).
      unfold trim in E. rewrite E in H. inversion H; subst. exact Hc.
  - intros t c. apply trimEnd_last.
Qed.

Example isWhiteSpace_samples :
  map isWhiteSpace [0x20; 0x09; 0x0A; 0xA0; 0x2003; 0x200A; 0x3000; 0xFEFF]%N
  = [true; true; true; true; true; true; true; true]
  /\ map isWhiteSpace [0x41; 0x00; 0x200B; 0x180E; 0x1FFF; 0x85]%N
     = [false; false; false; false; false; false].
Proof. split; reflexivity. Qed.

End Trim.

(** ** Properties of the schema *)

Section Schema.

Variable isURL : jsstring -> bool.

Lemma nullable_transform_Some (s : jsstring) :
  nullable_transform (Some s) = if blank s then None else Some (trim s).
Proof.
  unfold nullable_transform. rewrite isEmpty_trim.
  destruct s as [|c s]; [reflexivity|]. simpl isEmpty.
  destruct (blank (c :: s)); reflexivity.
Qed.

Lemma nullable_transform_idempotent (val : option jsstring) :
  nullable_transform (nullable_transform val) = nullable_transform val.
Proof.
  destruct val as [s|]; [|reflexivity].
  rewrite nullable_transform_Some.
  destruct (blank s) eqn:B; [reflexivity|].
  rewrite nullable_transform_Some, trim_idempotent.
  rewrite <- isEmpty_trim, trim_idempotent, isEmpty_trim, B. reflexivity.
Qed.

Lemma parse_scientific_name_blank (s : jsstring) :
  blank s = true -> parse_scientific_name s = Invalid.
Proof.
  intros B. unfold parse_scientific_name. rewrite (trim_blank s B). reflexivity.
Qed.

Lemma parse_scientific_name_not_blank (s : jsstring) :
  blank s = false -> parse_scientific_name s = Valid (trim s).
Proof.
  intros B. unfold parse_scientific_name. rewrite trim_idempotent.
  destruct (trim_head s B) as (c & t & E & _). rewrite E. reflexivity.
Qed.

(** A successful parse returns, key by key, what the parser of the key
    returned. *)
Lemma speciesSchema_success (v data : SpeciesFormValues) :
  speciesSchema isURL v = ParseSuccess data ->
  parse_scientific_name (scientific_name v) = Valid (scientific_name data)
  /\ common_name data = nullable_transform (common_name v)
  /\ kingdom data = kingdom v
  /\ parse_total_population (total_population v)
     = Valid (total_population data)
  /\ parse_image isURL (image v) = Valid (image data)
  /\ description data = nullable_transform (description v).
Proof.
  unfold speciesSchema, parse_nullable_text.
  destruct (parse_scientific_name (scientific_name v));
    destruct (parse_total_population (total_population v));
    destruct (parse_image isURL (image v));
    intros H; inversion H; subst; simpl; repeat split; reflexivity.
Qed.

Lemma speciesSchema_scientific_name_issue (v : SpeciesFormValues) :
  parse_scientific_name (scientific_name v) = Invalid ->
  exists issues,
    speciesSchema isURL v = ParseError issues
    /\ In scientific_name_field issues.
Proof.
  intros H. unfold speciesSchema, parse_nullable_text. rewrite H.
  destruct (parse_total_population (total_population v));
    destruct (parse_image isURL (image v));
    eexists; (split; [reflexivity | simpl; auto]).
Qed.

Lemma speciesSchema_image_issue (v : SpeciesFormValues) :
  parse_image isURL (image v) = Invalid ->
  exists issues,
    speciesSchema isURL v = ParseError issues /\ In image_field issues.
Proof.
  intros H. unfold speciesSchema, parse_nullable_text. rewrite H.
  destruct (parse_scientific_name (scientific_name v));
    destruct (parse_total_population (total_population v));
    eexists; (split; [reflexivity | simpl; auto]).
Qed.

Lemma speciesSchema_total_population_issue (v : SpeciesFormValues) :
  parse_total_population (total_population v) = Invalid ->
  exists issues,
    speciesSchema isURL v = ParseError issues
    /\ In total_population_field issues.
Proof.
  intros H. unfold speciesSchema, parse_nullable_text. rewrite H.
  destruct (parse_scientific_name (scientific_name v));
    destruct (parse_image isURL (image v));
    eexists; (split; [reflexivity | simpl; auto]).
Qed.

(** A population that passes validation is returned as it is. *)
Lemma parse_total_population_Valid (val out : option number) :
  parse_total_population val = Valid out -> out = val.
Proof.
  destruct val as [n|]; simpl.
  - destruct n; try discriminate;
      match goal with
      | |- context [if ?b then _ else _] => destruct b
      end; intros H; inversion H; reflexivity.
  - intros H; inversion H; reflexivity.
Qed.

(** C5: the normalization of the nullable text fields (common name and
    description) sends an empty or whitespace-only string to [null] and
    any other string to its trimmed form, and normalizing a normalized
    value changes nothing; a successful parse returns exactly this
    normalization for [common_name] and [description]. *)
Theorem nullable_text_normalization (v : SpeciesFormValues) :
  (forall val : option jsstring,
      parse_nullable_text val = Valid (nullable_transform val)
      /\ nullable_transform val
         = match val with
           | None => None
           | Some s => if blank s then None else Some (trim s)
           end
      /\ nullable_transform (nullable_transform val) = nullable_transform val)
  /\ (forall data : SpeciesFormValues,
         speciesSchema isURL v = ParseSuccess data ->
         common_name data = nullable_transform (common_name v)
         /\ description data = nullable_transform (description v)).
Proof.
  split.
  - intros val. split; [reflexivity|]. split.
    + destruct val as [s|]; [apply nullable_transform_Some | reflexivity].
    + apply nullable_transform_idempotent.
  - intros data H. apply speciesSchema_success in H. tauto.
Qed.

End Schema.

Example normalize_Felis_catus :
  nullable_transform (Some (lit "  Felis catus  ")) = Some (lit "Felis catus")
  /\ nullable_transform (Some (lit "Felis catus")) = Some (lit "Felis catus")
  /\ nullable_transform (Some (lit "   ")) = None
  /\ nullable_transform (Some []) = None.
Proof. repeat split; reflexivity. Qed.

Lemma nullable_text_normalization_witness :
  common_name Sample.felis_data
  = nullable_transform (common_name Sample.felis_draft)
  /\ description Sample.felis_data
     = nullable_transform (description Sample.felis_draft).
Proof.
  exact (proj2 (nullable_text_normalization Sample.isURL Sample.felis_draft)
               Sample.felis_data eq_refl).
Defined.

(** ** The handlers *)

Section Handlers.

Variable isURL : jsstring -> bool.
Variable ToNumber : jsstring -> number.

Lemma handleSubmit_invalid (response : PostgrestResponse) (c : Card)
      (issues : list FieldName) :
  speciesSchema isURL (values c) = ParseError issues ->
  handleSubmit isURL response c = (set_errors issues c, []).
Proof.
  intros H. unfold handleSubmit. rewrite H. reflexivity.
Qed.

Lemma handleSubmit_valid (response : PostgrestResponse) (c : Card)
      (data : SpeciesFormValues) :
  speciesSchema isURL (values c) = ParseSuccess data ->
  handleSubmit isURL response c = onSubmit data response (set_errors [] c).
Proof.
  intros H. unfold handleSubmit. rewrite H. reflexivity.
Qed.

Lemma step_submit_form (response : PostgrestResponse) (c : Card) :
  edit_buttons_rendered c = true ->
  step isURL ToNumber c (submit_form response) = handleSubmit isURL response c.
Proof.
  intros H. unfold step, guarded. rewrite H. reflexivity.
Qed.

Lemma edit_buttons_rendered_isEditing (c : Card) :
  edit_buttons_rendered c = true -> isEditing c = true.
Proof.
  unfold edit_buttons_rendered. intros H.
  apply andb_prop in H as [_ H]. exact H.
Qed.

(** C4: a draft whose scientific name is empty or whitespace-only is not
    sent to the DataStore: the submit handler emits no effect at all, the
    inline errors it leaves contain the scientific name, the draft is
    kept, and edit mode stays as it was, which is on whenever the submit
    button is there to be pressed. *)
Theorem blank_scientific_name_not_submitted
        (response : PostgrestResponse) (c : Card) :
  blank (scientific_name (values c)) = true ->
  snd (handleSubmit isURL response c) = []
  /\ count is_update (snd (handleSubmit isURL response c)) = 0
  /\ In scientific_name_field (errors (fst (handleSubmit isURL response c)))
  /\ values (fst (handleSubmit isURL response c)) = values c
  /\ isEditing (fst (handleSubmit isURL response c)) = isEditing c
  /\ (edit_buttons_rendered c = true ->
      step isURL ToNumber c (submit_form response) = handleSubmit isURL response c
      /\ isEditing (fst (step isURL ToNumber c (submit_form response))) = true).
Proof.
  intros B.
  destruct (speciesSchema_scientific_name_issue isURL (values c)
              (parse_scientific_name_blank _ B)) as (issues & E & I).
  assert (G : edit_buttons_rendered c = true ->
              step isURL ToNumber c (submit_form response)
              = handleSubmit isURL response c
              /\ isEditing (fst (step isURL ToNumber c (submit_form response)))
                 = true).
  { intros R. rewrite (step_submit_form response c R).
    split; [reflexivity|].
    rewrite (handleSubmit_invalid response c E). simpl.
    apply edit_buttons_rendered_isEditing; exact R. }
  rewrite (handleSubmit_invalid response c E) in *. simpl.
  repeat split; auto; [exact (proj1 (G H)) | exact (proj2 (G H))].
Qed.

(** C3: when the draft passes validation and the update comes back with
    an error, the submit handler sends the parsed draft, emits one
    destructive toast carrying the error message and nothing else: no
    refresh and no success toast. The card keeps its draft, its edit mode
    and its dialogs; a valid draft has no inline errors to show. *)
Theorem store_error_keeps_draft
        (message : jsstring) (c : Card) (data : SpeciesFormValues) :
  speciesSchema isURL (values c) = ParseSuccess data ->
  handleSubmit isURL (failure message) c
  = (set_errors [] c,
     [update (id (species c)) data;
      toast {| title := lit "Something went wrong.";
               toast_description := Some message;
               variant := destructive |}])
  /\ count (is_toast destructive) (snd (handleSubmit isURL (failure message) c)) = 1
  /\ count (is_toast default) (snd (handleSubmit isURL (failure message) c)) = 0
  /\ count is_refresh (snd (handleSubmit isURL (failure message) c)) = 0
  /\ values (fst (handleSubmit isURL (failure message) c)) = values c
  /\ isEditing (fst (handleSubmit isURL (failure message) c)) = isEditing c
  /\ (edit_buttons_rendered c = true ->
      step isURL ToNumber c (submit_form (failure message))
      = handleSubmit isURL (failure message) c
      /\ isEditing (fst (step isURL ToNumber c (submit_form (failure message)))) = true).
Proof.
  intros E.
  assert (G : edit_buttons_rendered c = true ->
              step isURL ToNumber c (submit_form (failure message))
              = handleSubmit isURL (failure message) c
              /\ isEditing (fst (step isURL ToNumber c
                                      (submit_form (failure message))))
                 = true).
  { intros R. rewrite (step_submit_form (failure message) c R).
    split; [reflexivity|].
    rewrite (handleSubmit_valid (failure message) c E). simpl.
    apply edit_buttons_rendered_isEditing; exact R. }
  rewrite (handleSubmit_valid (failure message) c E) in *. simpl.
  repeat split; auto; [exact (proj1 (G H)) | exact (proj2 (G H))].
Qed.

Lemma parse_scientific_name_Valid (s out : jsstring) :
  parse_scientific_name s = Valid out -> out = trim s.
Proof.
  unfold parse_scientific_name. rewrite trim_idempotent.
  destruct (1 <=? List.length (trim s))%nat; intros H; inversion H; reflexivity.
Qed.

Lemma parse_image_Valid (val out : option jsstring) :
  parse_image isURL val = Valid out -> out = nullable_transform val.
Proof.
  destruct val as [s|]; unfold parse_image.
  - destruct (isURL s); intros H; inversion H; reflexivity.
  - intros H; inversion H; reflexivity.
Qed.

(** What [speciesSchema] hands to [onSubmit] is the draft normalized key
    by key. *)
Lemma speciesSchema_normalizes (v data : SpeciesFormValues) :
  speciesSchema isURL v = ParseSuccess data ->
  data = {| scientific_name := trim (scientific_name v);
            common_name := nullable_transform (common_name v);
            kingdom := kingdom v;
            total_population := total_population v;
            image := nullable_transform (image v);
            description := nullable_transform (description v) |}.
Proof.
  intros H. apply speciesSchema_success in H.
  destruct H as (Hs & Hc & Hk & Hp & Hi & Hd).
  apply parse_scientific_name_Valid in Hs.
  apply parse_total_population_Valid in Hp.
  apply parse_image_Valid in Hi.
  destruct data; simpl in *; subst; reflexivity.
Qed.

Lemma trim_trimmed_form (s : jsstring) : trimmed_form s (trim s).
Proof. exact (trim_spec s). Qed.

Lemma nullable_transform_normalized_from (val : option jsstring) :
  normalized_from val (nullable_transform val).
Proof.
  destruct val as [s|]; [|reflexivity]. unfold normalized_from.
  rewrite nullable_transform_Some. destruct (blank s); [reflexivity|].
  exists (trim s). split; [reflexivity | apply trim_trimmed_form].
Qed.

(** C9: when the draft passes validation and the update succeeds, the
    submit handler sends the normalized draft to the DataStore, leaves
    edit mode, resets the form to the normalized draft, refreshes once and
    emits one toast, of the default (success) variant. Normalized is said
    here without the code: the scientific name is the typed one without
    its leading and trailing white space, and is not empty; the common
    name, the image and the description are [null] where the draft had
    [null] or only white space, and the text without its leading and
    trailing white space otherwise; kingdom and population are kept. *)
Theorem successful_submit_commits_normalized_draft
        (c : Card) (data : SpeciesFormValues) :
  speciesSchema isURL (values c) = ParseSuccess data ->
  (trimmed_form (scientific_name (values c)) (scientific_name data)
   /\ scientific_name data <> []
   /\ normalized_from (common_name (values c)) (common_name data)
   /\ kingdom data = kingdom (values c)
   /\ total_population data = total_population (values c)
   /\ normalized_from (image (values c)) (image data)
   /\ normalized_from (description (values c)) (description data))
  /\ data = {| scientific_name := trim (scientific_name (values c));
               common_name := nullable_transform (common_name (values c));
               kingdom := kingdom (values c);
               total_population := total_population (values c);
               image := nullable_transform (image (values c));
               description := nullable_transform (description (values c)) |}
  /\ snd (handleSubmit isURL success c)
     = [update (id (species c)) data;
        refresh;
        toast {| title := lit "Profile updated successfully!";
                 toast_description := None;
                 variant := default |}]
  /\ isEditing (fst (handleSubmit isURL success c)) = false
  /\ values (fst (handleSubmit isURL success c)) = data
  /\ errors (fst (handleSubmit isURL success c)) = []
  /\ count is_refresh (snd (handleSubmit isURL success c)) = 1
  /\ count (is_toast default) (snd (handleSubmit isURL success c)) = 1
  /\ count (is_toast destructive) (snd (handleSubmit isURL success c)) = 0
  /\ (edit_buttons_rendered c = true ->
      step isURL ToNumber c (submit_form success)
      = handleSubmit isURL success c).
Proof.
  intros E.
  pose proof (speciesSchema_normalizes (values c) E) as D.
  split.
  { pose proof (speciesSchema_success isURL (values c) E) as (S & _).
    rewrite D. simpl. repeat split;
      try apply trim_trimmed_form; try apply nullable_transform_normalized_from.
    intros T. unfold parse_scientific_name in S. rewrite T in S.
    discriminate. }
  split; [exact D|].
  assert (G : edit_buttons_rendered c = true ->
              step isURL ToNumber c (submit_form success)
              = handleSubmit isURL success c)
    by (apply step_submit_form).
  rewrite (handleSubmit_valid success c E) in *. simpl.
  repeat split; auto.
Qed.


(** The part of the ordering guarantee that the submit handler keeps: it
    refreshes only when the draft was valid and the update succeeded, and
    then after the update. *)
Lemma handleSubmit_refresh_only_after_success
      (response : PostgrestResponse) (c : Card) :
  In refresh (snd (handleSubmit isURL response c)) ->
  response = success
  /\ exists data,
      speciesSchema isURL (values c) = ParseSuccess data
      /\ exists t, snd (handleSubmit isURL response c)
                   = [update (id (species c)) data; refresh; t].
Proof.
  unfold handleSubmit.
  destruct (speciesSchema isURL (values c)) as [data|issues] eqn:E.
  - destruct response as [|message]; simpl.
    + intros _. split; [reflexivity|]. exists data. split; [reflexivity|].
      eexists; reflexivity.
    + intros [H|[H|[]]]; discriminate.
  - simpl. intros [].
Qed.

(** C2, where the code departs from it: after a delete that Supabase
    answered with an error, [startDeleting] still refreshes and still
    emits the toast of the default (success) variant, and no destructive
    one, while the submit handler does neither after an update that
    failed. *)
Theorem startDeleting_refreshes_after_failure
        (message : jsstring) (c : Card) (data : SpeciesFormValues) :
  count is_refresh (snd (startDeleting (failure message) c)) = 1
  /\ count (is_toast default) (snd (startDeleting (failure message) c)) = 1
  /\ count (is_toast destructive) (snd (startDeleting (failure message) c))
     = 0
  /\ count is_refresh (snd (onSubmit data (failure message) c)) = 0
  /\ count (is_toast default) (snd (onSubmit data (failure message) c)) = 0.
Proof. repeat split. Qed.

(** The image key: a value that passes is a URL, and it is returned
    normalized. *)
Lemma parse_image_Some_Valid (s : jsstring) (out : option jsstring) :
  parse_image isURL (Some s) = Valid out ->
  isURL s = true /\ out = nullable_transform (Some s).
Proof.
  unfold parse_image. destruct (isURL s); intros H; inversion H.
  split; reflexivity.
Qed.

(** C6, where the code departs from it: the [url] check runs before the
    transform, so on a platform where the empty string is no URL a draft
    whose image is the empty string is rejected with an issue on the
    image key and never reaches the DataStore, although the same value
    in the common name or the description is accepted and becomes
    [null]. *)
Theorem empty_image_rejected (response : PostgrestResponse) (c : Card) :
  isURL [] = false ->
  image (values c) = Some [] ->
  parse_image isURL (Some []) = Invalid
  /\ parse_nullable_text (Some []) = Valid None
  /\ exists issues,
      speciesSchema isURL (values c) = ParseError issues
      /\ In image_field issues
      /\ handleSubmit isURL response c = (set_errors issues c, []).
Proof.
  intros U I.
  assert (P : parse_image isURL (Some []) = Invalid)
    by (unfold parse_image; rewrite U; reflexivity).
  split; [exact P|]. split; [reflexivity|].
  rewrite <- I in P.
  destruct (speciesSchema_image_issue isURL (values c) P) as (issues & E & M).
  exists issues. split; [exact E|]. split; [exact M|].
  apply handleSubmit_invalid; exact E.
Qed.

End Handlers.

(** ** Sequences of events *)

Section Traces.

Variable isURL : jsstring -> bool.
Variable ToNumber : jsstring -> number.

Lemma jsstring_eqb_false (s t : jsstring) :
  s <> t -> jsstring_eqb s t = false.
Proof.
  intros H. unfold jsstring_eqb.
  destruct (list_eq_dec N.eq_dec s t); [contradiction | reflexivity].
Qed.


Lemma run_cons (c : Card) (e : Event) (l : list Event) :
  run isURL ToNumber c (e :: l)
  = (fst (run isURL ToNumber (fst (step isURL ToNumber c e)) l),
     snd (step isURL ToNumber c e)
     ++ snd (run isURL ToNumber (fst (step isURL ToNumber c e)) l)).
Proof.
  simpl. destruct (step isURL ToNumber c e) as [c1 effects1]. simpl.
  destruct (run isURL ToNumber c1 l); reflexivity.
Qed.

(** *** A viewer who is not the author *)

Lemma step_stranger (c : Card) (e : Event) :
  stranger_viewing c ->
  not_owned_by (sessionId c) e = true ->
  stranger_viewing (fst (step isURL ToNumber c e))
  /\ sessionId (fst (step isURL ToNumber c e)) = sessionId c
  /\ values (fst (step isURL ToNumber c e)) = values c
  /\ snd (step isURL ToNumber c e) = [].
Proof.
  intros (O & E & D) N. unfold stranger_viewing.
  destruct e; simpl;
    unfold guarded, view_buttons_rendered, edit_buttons_rendered,
      delete_buttons_rendered, view_buttons_rendered, inputs_editable;
    rewrite ?O, ?E, ?andb_false_r; simpl; auto.
  unfold isOwner. simpl. simpl in N.
  apply negb_true_iff in N. rewrite N. auto.
Qed.

Lemma run_stranger (events : list Event) (c : Card) :
  stranger_viewing c ->
  forallb (not_owned_by (sessionId c)) events = true ->
  stranger_viewing (fst (run isURL ToNumber c events))
  /\ values (fst (run isURL ToNumber c events)) = values c
  /\ snd (run isURL ToNumber c events) = [].
Proof.
  revert c. induction events as [|e events IH]; intros c S F; simpl.
  - auto.
  - simpl in F. apply andb_prop in F as [Fe F].
    destruct (step_stranger e S Fe) as (S1 & I1 & V1 & X1).
    destruct (step isURL ToNumber c e) as [c1 effects1]. simpl in *.
    rewrite <- I1 in F.
    destruct (IH c1 S1 F) as (S2 & V2 & X2).
    destruct (run isURL ToNumber c1 events) as [c2 effects2]. simpl in *.
    subst. rewrite V2, V1. auto.
Qed.

(** C7: on a card mounted for a viewer who is not the author of the
    record, and re-rendered only with rows of other authors, no sequence
    of events turns edit mode on or opens the delete confirmation: after
    any of them none of the mutating controls is rendered, the draft is
    the one of the mount and nothing was asked of the DataStore. *)
Theorem stranger_never_leaves_viewing
        (sp : Species) (sid : jsstring) (events : list Event) :
  author sp <> sid ->
  forallb (not_owned_by sid) events = true ->
  isEditing (fst (run isURL ToNumber (SpeciesCard sp sid) events)) = false
  /\ openDelete (fst (run isURL ToNumber (SpeciesCard sp sid) events)) = false
  /\ view_buttons_rendered
       (fst (run isURL ToNumber (SpeciesCard sp sid) events)) = false
  /\ edit_buttons_rendered
       (fst (run isURL ToNumber (SpeciesCard sp sid) events)) = false
  /\ delete_buttons_rendered
       (fst (run isURL ToNumber (SpeciesCard sp sid) events)) = false
  /\ values (fst (run isURL ToNumber (SpeciesCard sp sid) events))
     = defaultValues sp
  /\ snd (run isURL ToNumber (SpeciesCard sp sid) events) = [].
Proof.
  intros A F.
  assert (S : stranger_viewing (SpeciesCard sp sid)).
  { unfold stranger_viewing, isOwner. simpl.
    rewrite (jsstring_eqb_false A). auto. }
  destruct (run_stranger events S F) as ((O & E & D) & V & X).
  unfold delete_buttons_rendered, view_buttons_rendered, edit_buttons_rendered.
  rewrite O, E, D, V, X, !andb_false_r. simpl. repeat split.
Qed.

(** *** An edit session *)



Lemma step_click_cancel (c : Card) :
  edit_buttons_rendered c = true ->
  step isURL ToNumber c click_cancel = handleCancel c.
Proof. intros H. unfold step, guarded. rewrite H. reflexivity. Qed.


(** *** The population input *)

Lemma apply_change_population (ch : Change) (v : SpeciesFormValues) :
  total_population v <> None ->
  total_population (apply_change ToNumber ch v) <> None.
Proof. destruct ch; simpl; auto; discriminate. Qed.

(** Unless it is Cancel, no event takes a population away from a draft
    that has one. *)
Lemma step_keeps_population (c : Card) (e : Event) :
  is_cancel e = false ->
  total_population (values c) <> None ->
  total_population (values (fst (step isURL ToNumber c e))) <> None.
Proof.
  intros NC P. destruct e; simpl; unfold guarded; try discriminate.
  - exact P.
  - destruct (view_buttons_rendered c); exact P.
  - destruct (inputs_editable c); simpl; [|exact P].
    apply apply_change_population; exact P.
  - destruct (view_buttons_rendered c); exact P.
  - destruct (edit_buttons_rendered c); [|exact P].
    unfold handleSubmit.
    destruct (speciesSchema isURL (values c)) as [data|issues] eqn:E;
      [|exact P].
    destruct response; simpl; [|exact P].
    rewrite (speciesSchema_normalizes isURL (values c) E). exact P.
  - destruct (delete_buttons_rendered c); exact P.
  - destruct (delete_buttons_rendered c); exact P.
  - exact P.
Qed.

Lemma run_keeps_population (events : list Event) (c : Card) :
  forallb (fun e => negb (is_cancel e)) events = true ->
  total_population (values c) <> None ->
  total_population (values (fst (run isURL ToNumber c events))) <> None.
Proof.
  revert c. induction events as [|e events IH]; intros c F P.
  - exact P.
  - simpl in F. apply andb_prop in F as [Fe F].
    apply negb_true_iff in Fe.
    rewrite run_cons. cbn [fst].
    apply IH; [exact F|]. apply step_keeps_population; assumption.
Qed.

(** *** The handlers cut at their await *)

Lemma happenings_cons (m : Mounted) (h : Happening) (hs : list Happening) :
  happenings isURL ToNumber m (h :: hs)
  = (fst (happenings isURL ToNumber (fst (happen isURL ToNumber m h)) hs),
     snd (happen isURL ToNumber m h)
     ++ snd (happenings isURL ToNumber (fst (happen isURL ToNumber m h)) hs)).
Proof.
  simpl. destruct (happen isURL ToNumber m h) as [m1 effects1]. simpl.
  destruct (happenings isURL ToNumber m1 hs); reflexivity.
Qed.

Lemma onSubmit_resumed_spec
      (data : SpeciesFormValues) (response : PostgrestResponse) (c : Card) :
  onSubmit data response c
  = (fst (onSubmit_resumed data response c),
     update (id (species c)) data :: snd (onSubmit_resumed data response c)).
Proof. destruct response; reflexivity. Qed.

Lemma nth_error_last (A : Type) (l : list A) (x : A) :
  nth_error (l ++ [x]) (List.length l) = Some x
  /\ remove_nth (List.length l) (l ++ [x]) = l.
Proof.
  induction l as [|y l [IH1 IH2]]; simpl; [split; reflexivity|].
  split; [exact IH1 | rewrite IH2; reflexivity].
Qed.

(** The run of [step] is the one in which the response comes at once:
    pressing Update Species or Yes, delete and then the answer to that
    request, with nothing in between, is what [step] does to the card,
    with the same effects in the same order. *)
Lemma answered_at_once (m : Mounted) (response : PostgrestResponse) :
  (edit_buttons_rendered (card m) = true ->
   card (fst (happenings isURL ToNumber m
                [press_update_species;
                 answered (List.length (in_flight m)) response]))
   = fst (step isURL ToNumber (card m) (submit_form response))
   /\ (forall data,
         speciesSchema isURL (values (card m)) = ParseSuccess data ->
         snd (happenings isURL ToNumber m
                [press_update_species;
                 answered (List.length (in_flight m)) response])
         = snd (step isURL ToNumber (card m) (submit_form response))))
  /\ (delete_buttons_rendered (card m) = true ->
      card (fst (happenings isURL ToNumber m
                   [press_yes_delete;
                    answered (List.length (in_flight m)) response]))
      = fst (step isURL ToNumber (card m) (click_yes_delete response))
      /\ snd (happenings isURL ToNumber m
                 [press_yes_delete;
                  answered (List.length (in_flight m)) response])
         = snd (step isURL ToNumber (card m) (click_yes_delete response))).
Proof.
  split; intros R.
  - rewrite !happenings_cons. cbn [happenings fst snd happen].
    unfold step, guarded. rewrite R.
    unfold handleSubmit_started, handleSubmit.
    destruct (speciesSchema isURL (values (card m))) as [data|issues] eqn:E.
    + cbn [fst snd card in_flight]. unfold resume. cbn [in_flight card].
      destruct (nth_error_last (in_flight m) (awaiting_update data))
        as [N1 N2].
      rewrite N1. cbn [fst snd card].
      rewrite onSubmit_resumed_spec. cbn [fst snd]. split; [reflexivity|].
      intros data' H. rewrite app_nil_r. reflexivity.
    + cbn [fst snd card in_flight]. split; [|intros data' H; discriminate].
      unfold resume. cbn [in_flight card].
      rewrite (proj2 (nth_error_None _ _)) by (apply Nat.le_refl).
      reflexivity.
  - rewrite !happenings_cons. cbn [happenings fst snd happen].
    unfold step, guarded. rewrite R.
    unfold startDeleting_started, startDeleting.
    cbn [fst snd card in_flight]. unfold resume. cbn [in_flight card].
    destruct (nth_error_last (in_flight m)
                (awaiting_delete
                   (species_scientific_name (species (card m)))))
      as [N1 N2].
    rewrite N1. cbn [fst snd card startDeleting_resumed].
    split; reflexivity.
Qed.

Lemma Forall_remove_nth (A : Type) (P : A -> Prop) (i : nat) (l : list A) :
  Forall P l -> Forall P (remove_nth i l).
Proof.
  intros F. revert i. induction F as [|x l Px F IH]; intros i.
  - destruct i; constructor.
  - destruct i; simpl; [exact F | constructor; [exact Px | apply IH]].
Qed.

Lemma happen_keeps_population (m : Mounted) (h : Happening) :
  not_cancel h = true ->
  population_kept m ->
  population_kept (fst (happen isURL ToNumber m h)).
Proof.
  intros NC [P F]. unfold population_kept.
  destruct h as [e| | |i response]; simpl.
  - split; [|exact F]. apply step_keeps_population; [|exact P].
    simpl in NC. apply negb_true_iff in NC. exact NC.
  - destruct (edit_buttons_rendered (card m)); [|split; assumption].
    unfold handleSubmit_started.
    destruct (speciesSchema isURL (values (card m))) as [data|issues] eqn:E;
      simpl; (split; [exact P|]); [|exact F].
    apply Forall_app. split; [exact F|]. constructor; [|constructor].
    simpl. rewrite (speciesSchema_normalizes isURL _ E). exact P.
  - destruct (delete_buttons_rendered (card m)); [|split; assumption].
    simpl. split; [exact P|].
    apply Forall_app. split; [exact F|]. constructor; [exact I|constructor].
  - unfold resume.
    destruct (nth_error (in_flight m) i) as [[data|name]|] eqn:N;
      [| |split; assumption].
    + simpl. split; [|apply Forall_remove_nth; exact F].
      apply nth_error_In in N.
      rewrite Forall_forall in F. specialize (F _ N). simpl in F.
      destruct response; simpl; [exact F | exact P].
    + simpl. split; [exact P | apply Forall_remove_nth; exact F].
Qed.

Lemma happenings_keep_population (hs : list Happening) (m : Mounted) :
  forallb not_cancel hs = true ->
  population_kept m ->
  population_kept (fst (happenings isURL ToNumber m hs)).
Proof.
  revert m. induction hs as [|h hs IH]; intros m F K; [exact K|].
  simpl in F. apply andb_prop in F as [Fh F].
  rewrite happenings_cons. cbn [fst].
  apply IH; [exact F|]. apply happen_keeps_population; assumption.
Qed.

(** C10, as the code has it: typing [text] into the population input of a
    card in edit mode sets the population of the draft to the number
    [+text]; with the empty string that number is [0], which the schema
    rejects although it accepts [null]. From then on, with the handlers
    cut at their await and whatever is interleaved, the population of the
    draft is not [null] again unless the form is reset to a [null]: by
    Cancel, or by the reset that ends an update that was in flight with a
    [null] population. *)
Theorem population_stays_until_reset
        (m : Mounted) (text : jsstring) (hs : list Happening) :
  ToNumber [] = zero ->
  inputs_editable (card m) = true ->
  Forall carries_population (in_flight m) ->
  forallb not_cancel hs = true ->
  total_population
    (values (fst (step isURL ToNumber (card m)
                    (input (change_total_population text)))))
  = Some (ToNumber text)
  /\ parse_total_population (Some (ToNumber [])) = Invalid
  /\ parse_total_population None = Valid None
  /\ (forall v : SpeciesFormValues,
         In total_population_field
            (issues_of isURL
               (apply_change ToNumber (change_total_population []) v)))
  /\ total_population
       (values (card (fst (happenings isURL ToNumber m
                             (at_once (input (change_total_population text))
                                :: hs)))))
     <> None.
Proof.
  intros Z E F NC.
  assert (S : total_population
                (values (fst (step isURL ToNumber (card m)
                                (input (change_total_population text)))))
              = Some (ToNumber text)).
  { simpl. unfold guarded. rewrite E. reflexivity. }
  assert (P : parse_total_population (Some (ToNumber [])) = Invalid)
    by (rewrite Z; reflexivity).
  split; [exact S|]. split; [exact P|]. split; [reflexivity|]. split.
  - intros v. unfold issues_of.
    destruct (speciesSchema_total_population_issue isURL
                (apply_change ToNumber (change_total_population []) v) P)
      as (issues & Ei & M).
    rewrite Ei. exact M.
  - rewrite happenings_cons. cbn [fst].
    apply happenings_keep_population; [exact NC|].
    split; [|exact F]. cbn [happen fst card]. rewrite S. discriminate.
Qed.

End Traces.

(** ** The scenarios, run on the sample platform *)

Example submit_Cavia_aperea :
  Sample.run Sample.viewing Sample.first_session
  = (form_reset Sample.aperea_data Sample.viewing,
     [update 7 Sample.aperea_data;
      refresh;
      toast {| title := lit "Profile updated successfully!";
               toast_description := None;
               variant := default |}]).
Proof. reflexivity. Qed.

Example submit_negative_population :
  Sample.run Sample.editing
    [input (change_total_population (lit "-5")); submit_form success]
  = (set_errors [total_population_field]
       (set_values
          (apply_change Sample.ToNumber (change_total_population (lit "-5"))
             (values Sample.editing))
          Sample.editing),
     []).
Proof. reflexivity. Qed.

Example delete_after_failure :
  Sample.step Sample.confirming
    (click_yes_delete (failure (lit "permission denied")))
  = (Sample.confirming,
     [delete 7;
      refresh;
      toast {| title := lit "Species has been deleted!";
               toast_description :=
                 Some (lit "Successfully deleted Cavia porcellus.");
               variant := default |}]).
Proof. reflexivity. Qed.



(** Against C10 as stated: after 12 was typed into the population input,
    Cancel brings the [null] of the record back into the draft, and the
    next submit sends that [null] to Supabase. *)
Lemma cancel_brings_null_population_back :
  total_population
    (values (fst (Sample.run Sample.editing
                    [input (change_total_population (lit "12"))])))
  = Some (ofZ 12)
  /\ total_population
       (values (fst (Sample.run Sample.editing
                       [input (change_total_population (lit "12"));
                        click_cancel])))
     = None
  /\ snd (Sample.run Sample.editing
            [input (change_total_population (lit "12"));
             click_cancel;
             click_edit_species;
             submit_form (failure (lit "permission denied"))])
     = [update 7 (defaultValues Sample.guinea_pig);
        toast {| title := lit "Something went wrong.";
                 toast_description := Some (lit "permission denied");
                 variant := destructive |}]
  /\ total_population (defaultValues Sample.guinea_pig) = None.
Proof. repeat split. Qed.

(** The other way back to [null]: an update pressed with a [null]
    population is still in flight when 12 is typed; its answer resets the
    form to the data that was sent. *)
Example reset_after_await_brings_null_back :
  total_population
    (values (card (fst (Interleaved.happenings Interleaved.editing
                          [press_update_species;
                           at_once (input (change_total_population (lit "12")))]))))
  = Some (ofZ 12)
  /\ total_population
       (values (card (fst (Interleaved.happenings Interleaved.editing
                             [press_update_species;
                              at_once (input (change_total_population (lit "12")));
                              answered 0 success]))))
     = None.
Proof. split; reflexivity. Qed.

(** ** The theorems at concrete cards *)

Lemma blank_scientific_name_not_submitted_witness :
  snd (handleSubmit Sample.isURL success Sample.blank_name) = []
  /\ In scientific_name_field
        (errors (fst (handleSubmit Sample.isURL success Sample.blank_name)))
  /\ isEditing (fst (Sample.step Sample.blank_name (submit_form success)))
     = true.
Proof.
  destruct (@blank_scientific_name_not_submitted
              Sample.isURL Sample.ToNumber success Sample.blank_name eq_refl)
    as (A & _ & B & _ & _ & C).
  exact (conj A (conj B (proj2 (C eq_refl)))).
Defined.

Lemma store_error_keeps_draft_witness :
  count (is_toast destructive)
    (snd (handleSubmit Sample.isURL (failure (lit "permission denied"))
            Sample.aperea)) = 1
  /\ values (fst (handleSubmit Sample.isURL (failure (lit "permission denied"))
                    Sample.aperea))
     = values Sample.aperea.
Proof.
  destruct (@store_error_keeps_draft
              Sample.isURL Sample.ToNumber (lit "permission denied")
              Sample.aperea Sample.aperea_data eq_refl)
    as (_ & A & _ & _ & B & _).
  exact (conj A B).
Defined.

Lemma successful_submit_commits_normalized_draft_witness :
  values (fst (handleSubmit Sample.isURL success Sample.untidy))
  = Sample.tidy_data
  /\ normalized_from (Some (lit " Brazilian guinea pig  "))
       (Some (lit "Brazilian guinea pig"))
  /\ normalized_from (Some (lit "   ")) None
  /\ count is_refresh (snd (handleSubmit Sample.isURL success Sample.untidy))
     = 1
  /\ count (is_toast default)
       (snd (handleSubmit Sample.isURL success Sample.untidy)) = 1.
Proof.
  destruct (@successful_submit_commits_normalized_draft
              Sample.isURL Sample.ToNumber
              Sample.untidy Sample.tidy_data eq_refl)
    as ((_ & _ & N1 & _ & _ & _ & N2) & _ & _ & _ & A & _ & B & C & _).
  exact (conj A (conj N1 (conj N2 (conj B C)))).
Defined.

Lemma empty_image_rejected_witness :
  parse_image Sample.isURL (Some []) = Invalid
  /\ exists issues,
      speciesSchema Sample.isURL (values Sample.cleared_image)
      = ParseError issues
      /\ In image_field issues
      /\ handleSubmit Sample.isURL success Sample.cleared_image
         = (set_errors issues Sample.cleared_image, []).
Proof.
  destruct (@empty_image_rejected
              Sample.isURL success Sample.cleared_image eq_refl eq_refl)
    as (A & _ & B).
  exact (conj A B).
Defined.

Lemma stranger_never_leaves_viewing_witness :
  isEditing (fst (Sample.run (SpeciesCard Sample.guinea_pig (lit "u2"))
                    Sample.every_control)) = false
  /\ openDelete (fst (Sample.run (SpeciesCard Sample.guinea_pig (lit "u2"))
                        Sample.every_control)) = false.
Proof.
  assert (A : author Sample.guinea_pig <> lit "u2") by discriminate.
  destruct (@stranger_never_leaves_viewing
              Sample.isURL Sample.ToNumber Sample.guinea_pig (lit "u2")
              Sample.every_control A eq_refl)
    as (E & D & _).
  exact (conj E D).
Defined.


Lemma population_stays_until_reset_witness :
  total_population
    (values (fst (Sample.step Sample.editing
                    (input (change_total_population [])))))
  = Some zero
  /\ total_population
       (values (card (fst (Interleaved.happenings Interleaved.editing
                             [at_once (input (change_total_population []));
                              at_once (input (change_total_population (lit "12")));
                              press_update_species;
                              at_once (input (change_total_population (lit "13")));
                              answered 0 success;
                              at_once (onOpenChange false)]))))
     <> None.
Proof.
  destruct (@population_stays_until_reset
              Sample.isURL Sample.ToNumber Interleaved.editing []
              [at_once (input (change_total_population (lit "12")));
               press_update_species;
               at_once (input (change_total_population (lit "13")));
               answered 0 success;
               at_once (onOpenChange false)]
              eq_refl eq_refl (Forall_nil _) eq_refl)
    as (A & _ & _ & _ & B).
  exact (conj A B).
Defined.

(** ** Further properties of the component *)

(** *** The summary *)

Lemma length_trim (s : jsstring) : List.length (trim s) <= List.length s.
Proof.
  destruct (trim_spec s) as (pre & post & E & _).
  rewrite E at 2. rewrite !length_app. lia.
Qed.

Lemma blank_firstn (n : nat) (s : jsstring) :
  blank s = true -> blank (firstn n s) = true.
Proof.
  revert n. induction s as [|c s IH]; intros n; destruct n; simpl; auto.
  intros H. apply andb_prop in H as [Hc Hs]. rewrite Hc. simpl. auto.
Qed.

(** X1: the preview under the heading is empty when the record has no
    description or an empty one; otherwise it is a text of at most 150
    code units, without white space at either end, followed by three
    dots, so it never exceeds 153 code units. *)
Theorem description_preview_shape (sp : Species) :
  List.length (description_preview sp) <= 153
  /\ match species_description sp with
     | None | Some [] => description_preview sp = []
     | Some d =>
         exists text,
           description_preview sp = text ++ lit "..."
           /\ List.length text <= 150
           /\ List.length text <= List.length d
           /\ trim text = text
     end.
Proof.
  unfold description_preview.
  destruct (species_description sp) as [[|c d]|]; simpl isEmpty; cbv iota.
  - split; [simpl; lia | reflexivity].
  - assert (L : List.length (trim (firstn 150 (c :: d))) <= 150).
    { etransitivity; [apply length_trim|]. apply firstn_le_length. }
    split.
    + rewrite length_app. change (List.length (lit "...")) with 3. lia.
    + exists (trim (firstn 150 (c :: d))).
      split; [reflexivity|]. split; [exact L|]. split.
      * etransitivity; [apply length_trim|]. rewrite length_firstn. lia.
      * apply trim_idempotent.
  - split; [simpl; lia | reflexivity].
Qed.

(** X2: the three dots are appended whether or not anything was cut: a
    description of at most 150 code units that is not empty is shown
    trimmed and followed by the dots, and one that is all white space is
    shown as the dots alone. *)
Theorem description_preview_short (sp : Species) (d : jsstring) :
  species_description sp = Some d ->
  d <> [] ->
  (List.length d <= 150 -> description_preview sp = trim d ++ lit "...")
  /\ (blank d = true -> description_preview sp = lit "...").
Proof.
  intros E N. unfold description_preview. rewrite E.
  destruct d as [|c d]; [contradiction|]. simpl isEmpty. cbv iota. split.
  - intros L. rewrite firstn_all2 by exact L. reflexivity.
  - intros B. rewrite (trim_blank _ (blank_firstn 150 _ B)). reflexivity.
Qed.

Lemma description_preview_short_witness :
  description_preview
    (Build_Species 7 (lit "u1") (lit "Cavia porcellus") None Animalia None None
       (Some (lit " A rodent. ")))
  = lit "A rodent....".
Proof.
  assert (N : lit " A rodent. " <> []) by discriminate.
  apply (proj1 (@description_preview_short
                  (Build_Species 7 (lit "u1") (lit "Cavia porcellus") None
                     Animalia None None (Some (lit " A rodent. ")))
                  (lit " A rodent. ") eq_refl N)).
  apply Nat.leb_le. reflexivity.
Defined.

(** *** The form controls *)

Lemma jsstring_eqb_true (s t : jsstring) :
  jsstring_eqb s t = true -> s = t.
Proof.
  unfold jsstring_eqb. destruct (list_eq_dec N.eq_dec s t); [auto | discriminate].
Qed.

(** X3: every item the kingdom select renders is accepted by its own
    [onValueChange], which stores that kingdom and touches no other key;
    no two items share a string; and a string that [kingdoms.parse]
    accepts is the string of the kingdom it returns. *)
Theorem kingdom_select_round_trip :
  (forall k : kingdoms,
      In k kingdoms_options
      /\ kingdoms_parse (kingdom_value k) = Some k
      /\ forall v, exists v',
          kingdom_onValueChange (kingdom_value k) v = Some v'
          /\ kingdom v' = k
          /\ scientific_name v' = scientific_name v
          /\ common_name v' = common_name v
          /\ total_population v' = total_population v
          /\ image v' = image v
          /\ description v' = description v)
  /\ NoDup (map kingdom_value kingdoms_options)
  /\ (forall value k, kingdoms_parse value = Some k -> value = kingdom_value k)
  /\ (forall value v,
         kingdoms_parse value = None -> kingdom_onValueChange value v = None).
Proof.
  split; [|split; [|split]].
  - intros k. split; [destruct k; simpl; tauto|].
    assert (P : kingdoms_parse (kingdom_value k) = Some k)
      by (destruct k; reflexivity).
    split; [exact P|]. intros v. unfold kingdom_onValueChange. rewrite P.
    eexists. split; [reflexivity|]. simpl. repeat split.
  - simpl. repeat constructor; simpl; intuition discriminate.
  - intros value k H. unfold kingdoms_parse in H.
    apply find_some in H as [_ H]. symmetry. apply jsstring_eqb_true. exact H.
  - intros value v H. unfold kingdom_onValueChange. rewrite H. reflexivity.
Qed.

(** X4: an input of a nullable text key shows [null] as the empty string,
    and typing back what it shows is normalized to what the stored value
    is normalized to; for a value that is already normalized the round
    trip returns the value itself. *)
Theorem input_value_round_trip (val : option jsstring) :
  nullable_transform (Some (input_value val)) = nullable_transform val
  /\ (nullable_transform val = val ->
      nullable_transform (Some (input_value val)) = val)
  /\ input_value (nullable_transform val) = trim (input_value val).
Proof.
  assert (R : nullable_transform (Some (input_value val))
              = nullable_transform val) by (destruct val; reflexivity).
  split; [exact R|]. split; [intros H; rewrite R; exact H|].
  destruct val as [s|]; [|reflexivity].
  rewrite nullable_transform_Some. simpl.
  destruct (blank s) eqn:B; simpl; [|reflexivity].
  symmetry. apply trim_blank. exact B.
Qed.

(** *** The population key *)

(** X5: the population key accepts a number exactly when it is an integer
    that is at least 1, and returns it unchanged; NaN, the infinities,
    fractions, zero and negative numbers are rejected. The [min(1)] check
    never decides: a number that passes [int()] and [positive()] passes
    it. *)
Theorem population_accepted_iff_positive_integer (n : number) :
  (parse_total_population (Some n) = Valid (Some n)
   <-> exists k : Z, (1 <= k)%Z /\ is_integer_value n k)
  /\ (parse_total_population (Some n) = Valid (Some n)
      \/ parse_total_population (Some n) = Invalid)
  /\ (isInteger n && gt0 n = true -> ge1 n = true).
Proof.
  destruct n as [|negative|m e].
  - simpl. split; [|split; [right; reflexivity | discriminate]].
    split; [discriminate | intros (k & _ & [])].
  - simpl. split; [|split; [right; reflexivity | discriminate]].
    split; [discriminate | intros (k & _ & [])].
  - assert (G : isInteger (Finite m e) && gt0 (Finite m e) = true ->
                ge1 (Finite m e) = true
                /\ exists k : Z, (1 <= k)%Z /\ is_integer_value (Finite m e) k).
    { simpl. intros H. apply andb_prop in H as [I P].
      apply Z.ltb_lt in P.
      destruct (0 <=? e)%Z eqn:E.
      - split; [apply Z.leb_le; lia|].
        exists (m * 2 ^ e)%Z. split; [|reflexivity].
        apply Z.leb_le in E.
        assert (0 < 2 ^ e)%Z by (apply Z.pow_pos_nonneg; lia). nia.
      - simpl in I. apply Z.eqb_eq in I. apply Z.leb_gt in E.
        assert (Q : (0 < 2 ^ (- e))%Z) by (apply Z.pow_pos_nonneg; lia).
        pose proof (Z.div_mod m (2 ^ (- e))%Z ltac:(lia)) as D.
        rewrite I in D.
        remember (2 ^ (- e))%Z as p. remember (m / p)%Z as q.
        assert (1 <= q)%Z by nia.
        split; [apply Z.leb_le; nia|].
        exists q. split; [assumption | lia]. }
    assert (K : (exists k : Z, (1 <= k)%Z /\ is_integer_value (Finite m e) k) ->
                isInteger (Finite m e) && gt0 (Finite m e) = true).
    { simpl. intros (k & L & V). destruct (0 <=? e)%Z eqn:E.
      - simpl. apply Z.ltb_lt. apply Z.leb_le in E.
        assert (0 < 2 ^ e)%Z by (apply Z.pow_pos_nonneg; lia). nia.
      - apply Z.leb_gt in E.
        assert (Q : (0 < 2 ^ (- e))%Z) by (apply Z.pow_pos_nonneg; lia).
        simpl. apply andb_true_intro. split.
        + apply Z.eqb_eq. rewrite V. apply Z.mod_mul. lia.
        + apply Z.ltb_lt. remember (2 ^ (- e))%Z as p. nia. }
    split; [|split].
    + split.
      * intros H. simpl in H.
        destruct (isInteger (Finite m e) && gt0 (Finite m e)) eqn:A.
        -- apply G. reflexivity.
        -- simpl in A. simpl in H. rewrite A in H. discriminate.
      * intros H. apply K in H. destruct (G H) as [H1 _].
        change (parse_total_population (Some (Finite m e)))
          with (if isInteger (Finite m e) && gt0 (Finite m e)
                   && ge1 (Finite m e)
                then Valid (Some (Finite m e)) else Invalid).
        rewrite H, H1. reflexivity.
    + change (parse_total_population (Some (Finite m e)))
        with (if isInteger (Finite m e) && gt0 (Finite m e) && ge1 (Finite m e)
              then Valid (Some (Finite m e)) else Invalid).
      destruct (isInteger (Finite m e) && gt0 (Finite m e) && ge1 (Finite m e));
        [left | right]; reflexivity.
    + intros H. apply G. exact H.
Qed.

(** *** The schema as a whole *)

Section SchemaAsAWhole.

Variable isURL : jsstring -> bool.

Lemma issues_of_filter (v : SpeciesFormValues) :
  issues_of isURL v = filter (field_invalid isURL v) schema_keys.
Proof.
  unfold issues_of, speciesSchema, schema_keys, field_invalid,
    parse_nullable_text.
  destruct (parse_scientific_name (scientific_name v));
    destruct (parse_total_population (total_population v));
    destruct (parse_image isURL (image v)); reflexivity.
Qed.

Lemma speciesSchema_issues_of (v : SpeciesFormValues) :
  match speciesSchema isURL v with
  | ParseSuccess _ => issues_of isURL v = []
  | ParseError issues => issues = issues_of isURL v /\ issues <> []
  end.
Proof.
  unfold issues_of, speciesSchema, parse_nullable_text.
  destruct (parse_scientific_name (scientific_name v));
    destruct (parse_total_population (total_population v));
    destruct (parse_image isURL (image v));
    simpl; try reflexivity; split; try reflexivity; discriminate.
Qed.

Lemma In_issues_of (v : SpeciesFormValues) (f : FieldName) :
  In f (issues_of isURL v) <-> field_invalid isURL v f = true.
Proof.
  rewrite issues_of_filter, filter_In. split; [tauto|].
  intros H. split; [destruct f; simpl; tauto | exact H].
Qed.

Lemma NoDup_issues_of (v : SpeciesFormValues) : NoDup (issues_of isURL v).
Proof.
  rewrite issues_of_filter. apply NoDup_filter.
  unfold schema_keys. repeat constructor; simpl; intuition discriminate.
Qed.

(** X6: the schema fails exactly on the keys whose own parser rejects
    their value: a key is reported in error if and only if its parser
    rejects it, only the scientific name, the population and the image
    can be reported, and the parse succeeds exactly when no key is
    rejected. *)
Theorem issues_are_the_rejected_keys (v : SpeciesFormValues) :
  match speciesSchema isURL v with
  | ParseSuccess _ => forall f, field_invalid isURL v f = false
  | ParseError issues =>
      issues <> []
      /\ forall f, In f issues <-> field_invalid isURL v f = true
  end
  /\ (forall f, In f (issues_of isURL v) <-> field_invalid isURL v f = true)
  /\ (forall f, In f (issues_of isURL v) ->
                f = scientific_name_field
                \/ f = total_population_field
                \/ f = image_field).
Proof.
  assert (M : forall f, In f (issues_of isURL v)
                        <-> field_invalid isURL v f = true)
    by (intros f; apply In_issues_of).
  split; [|split; [exact M|]].
  - pose proof (speciesSchema_issues_of v) as H.
    destruct (speciesSchema isURL v) as [data|issues].
    + intros f. destruct (field_invalid isURL v f) eqn:F; [|reflexivity].
      apply M in F. rewrite H in F. destruct F.
    + destruct H as [H N]. split; [exact N|].
      rewrite H. exact M.
  - intros f H. apply M in H. destruct f; simpl in H; auto; discriminate.
Qed.

(** X7: what the schema returns is a fixed point of the schema in every
    key but the image, whose check is made again on the trimmed URL:
    parsing parsed data returns the same data, or the single issue of an
    image that is no longer accepted. *)
Theorem parsed_data_parses_to_itself (v data : SpeciesFormValues) :
  speciesSchema isURL v = ParseSuccess data ->
  speciesSchema isURL data
  = match image data with
    | None => ParseSuccess data
    | Some url => if isURL url then ParseSuccess data
                  else ParseError [image_field]
    end.
Proof.
  intros H. pose proof (speciesSchema_success isURL v H) as (S & _ & _ & P & _).
  rewrite (speciesSchema_normalizes isURL v H) in *. simpl in *.
  apply parse_total_population_Valid in P as P'.
  unfold speciesSchema. simpl.
  assert (S' : parse_scientific_name (trim (scientific_name v))
               = Valid (trim (scientific_name v))).
  { unfold parse_scientific_name in *. rewrite !trim_idempotent in *.
    destruct (1 <=? List.length (trim (scientific_name v)))%nat;
      [reflexivity | discriminate]. }
  rewrite S', P. unfold parse_nullable_text.
  rewrite !nullable_transform_idempotent.
  destruct (nullable_transform (image v)) as [url|] eqn:I.
  - assert (T : nullable_transform (Some url) = Some url)
      by (rewrite <- I; apply nullable_transform_idempotent).
    unfold parse_image. rewrite T.
    destruct (isURL url); reflexivity.
  - reflexivity.
Qed.

End SchemaAsAWhole.

Lemma parsed_data_parses_to_itself_witness :
  speciesSchema Sample.isURL Sample.felis_data = ParseSuccess Sample.felis_data.
Proof.
  exact (@parsed_data_parses_to_itself Sample.isURL
           Sample.felis_draft Sample.felis_data eq_refl).
Defined.

(** *** The inline errors *)

Section InlineErrors.

Variable isURL : jsstring -> bool.
Variable ToNumber : jsstring -> number.

Lemma field_invalid_apply_change
      (ch : Change) (v : SpeciesFormValues) (g : FieldName) :
  g <> changed_field ch ->
  field_invalid isURL (apply_change ToNumber ch v) g = field_invalid isURL v g.
Proof. destruct ch, g; simpl; intros H; try reflexivity; contradiction. Qed.

Lemma NoDup_remove_all (f : FieldName) (l : list FieldName) :
  NoDup l -> NoDup (remove FieldName_eq_dec f l).
Proof.
  induction 1 as [|x l N D IH]; simpl; [constructor|].
  destruct (FieldName_eq_dec f x); [exact IH|].
  constructor; [|exact IH].
  intros H. apply in_remove in H as [H _]. contradiction.
Qed.

(** The inline errors after a change of one control. *)
Lemma errors_field_onChange (ch : Change) (c : Card) (g : FieldName) :
  In g (errors (fst (field_onChange isURL ToNumber ch c)))
  <-> (g = changed_field ch
       /\ field_invalid isURL (apply_change ToNumber ch (values c)) g = true)
      \/ (g <> changed_field ch /\ In g (errors c)).
Proof.
  unfold field_onChange, revalidate. simpl.
  destruct (in_dec FieldName_eq_dec (changed_field ch)
              (issues_of isURL (apply_change ToNumber ch (values c))))
    as [I|I]; simpl.
  - apply In_issues_of in I. split.
    + intros [H|H]; [left; subst; auto|].
      apply in_remove in H as [H1 H2]. right. auto.
    + intros [[H _]|[H1 H2]]; [left; auto|].
      right. apply in_in_remove; auto.
  - rewrite In_issues_of in I. split.
    + intros H. apply in_remove in H as [H1 H2]. right. auto.
    + intros [[H1 H2]|[H1 H2]]; [subst; contradiction|].
      apply in_in_remove; auto.
Qed.


Lemma step_errors_sound (c : Card) (e : Event) :
  errors_sound isURL c -> errors_sound isURL (fst (step isURL ToNumber c e)).
Proof.
  intros [N S].
  assert (Z : forall c', errors c' = [] -> errors_sound isURL c').
  { intros c' H. unfold errors_sound. rewrite H.
    split; [constructor | intros f []]. }
  destruct e; simpl; unfold guarded;
    try match goal with
        | |- context [if ?b then _ else _] => destruct b
        end; simpl; try (split; assumption).
  - (* a change of one control *)
    split.
    + unfold revalidate. simpl.
      destruct (in_dec FieldName_eq_dec (changed_field ch)
                  (issues_of isURL (apply_change ToNumber ch (values c))));
        simpl.
      * constructor; [apply remove_In | apply NoDup_remove_all; exact N].
      * apply NoDup_remove_all; exact N.
    + intros g H.
      change (In g (errors (fst (field_onChange isURL ToNumber ch c)))) in H.
      apply errors_field_onChange in H as [[_ H]|[H1 H2]]; [exact H|].
      change (field_invalid isURL (apply_change ToNumber ch (values c)) g
              = true).
      rewrite field_invalid_apply_change by exact H1. auto.
  - (* Cancel *)
    apply Z. reflexivity.
  - (* the form is submitted *)
    unfold handleSubmit.
    pose proof (speciesSchema_issues_of isURL (values c)) as I.
    destruct (speciesSchema isURL (values c)) as [data|issues].
    + destruct response; simpl; apply Z; reflexivity.
    + destruct I as [I _]. subst issues. simpl. split.
      * apply NoDup_issues_of.
      * intros f. apply In_issues_of.
Qed.

(** X9: from the mount on, whatever happens to the card, an inline error
    is shown at most once per key and only under a key whose value in the
    draft is rejected by the schema: no error outlives the value that
    caused it. *)
Theorem inline_errors_are_sound
        (sp : Species) (sid : jsstring) (events : list Event) :
  errors_sound isURL (fst (run isURL ToNumber (SpeciesCard sp sid) events)).
Proof.
  assert (G : forall c, errors_sound isURL c ->
                        errors_sound isURL (fst (run isURL ToNumber c events))).
  { induction events as [|e events' IH]; intros c S; [exact S|].
    rewrite run_cons. cbn [fst]. apply IH. apply step_errors_sound. exact S. }
  apply G. split; [constructor | intros f []].
Qed.

End InlineErrors.


(** *** What is asked of Supabase *)

Section Requests.

Variable isURL : jsstring -> bool.
Variable ToNumber : jsstring -> number.

Ltac in_cases H :=
  simpl in H;
  repeat match type of H with
         | _ \/ _ => destruct H as [H|H]
         | False => destruct H
         end.

(** An effect of a sequence of events is an effect of one of its steps. *)
Lemma run_effect_origin (x : Effect) (events : list Event) (c : Card) :
  In x (snd (run isURL ToNumber c events)) ->
  exists pre e post,
    events = pre ++ e :: post
    /\ In x (snd (step isURL ToNumber (fst (run isURL ToNumber c pre)) e)).
Proof.
  revert c. induction events as [|e events IH]; intros c; [intros []|].
  rewrite run_cons. cbn [snd]. intros H. apply in_app_or in H as [H|H].
  - exists [], e, events. split; [reflexivity | exact H].
  - destruct (IH _ H) as (pre & e' & post & E & I).
    exists (e :: pre), e', post. split; [rewrite E; reflexivity|].
    rewrite run_cons. cbn [fst]. exact I.
Qed.

Lemma step_update_origin (row : Z) (patch : SpeciesFormValues)
      (c : Card) (e : Event) :
  In (update row patch) (snd (step isURL ToNumber c e)) ->
  (exists response, e = submit_form response)
  /\ edit_buttons_rendered c = true
  /\ speciesSchema isURL (values c) = ParseSuccess patch
  /\ row = id (species c).
Proof.
  destruct e; simpl; unfold guarded;
    try match goal with
        | |- context [if ?b then _ else _] => destruct b eqn:G
        end; simpl; try tauto.
  - unfold handleSubmit.
    destruct (speciesSchema isURL (values c)) as [data|issues];
      [|intros []].
    destruct response; intros H; in_cases H;
      try discriminate; inversion H; subst;
      (split; [eexists; reflexivity | auto]).
  - intros H; in_cases H; discriminate.
Qed.

Lemma step_delete_origin (row : Z) (c : Card) (e : Event) :
  In (delete row) (snd (step isURL ToNumber c e)) ->
  (exists response, e = click_yes_delete response)
  /\ delete_buttons_rendered c = true
  /\ row = id (species c).
Proof.
  destruct e; simpl; unfold guarded;
    try match goal with
        | |- context [if ?b then _ else _] => destruct b eqn:G
        end; simpl; try tauto.
  - unfold handleSubmit.
    destruct (speciesSchema isURL (values c)) as [data|issues];
      [|intros []].
    destruct response; intros H; in_cases H; discriminate.
  - intros H; in_cases H; try discriminate. inversion H; subst.
    split; [eexists; reflexivity | auto].
Qed.

Lemma rendered_owner_open (c : Card) :
  edit_buttons_rendered c = true \/ delete_buttons_rendered c = true ->
  isOwner c = true /\ open c = true.
Proof.
  unfold delete_buttons_rendered, view_buttons_rendered, edit_buttons_rendered.
  destruct (open c), (isOwner c); simpl; intros [H|H];
    try discriminate; auto.
Qed.

(** X10: in any sequence of events, an update reaches Supabase only from
    a submit of the form while the card is open in edit mode for its
    author, and carries what the schema returned for the draft of that
    moment; a delete only from Yes, delete with the confirmation open for
    the author. Both name the row of the [species] prop of that moment. *)
Theorem requests_come_from_the_owner
        (c : Card) (events : list Event) (x : Effect) :
  In x (snd (run isURL ToNumber c events)) ->
  is_request x = true ->
  exists pre e post,
    events = pre ++ e :: post
    /\ isOwner (fst (run isURL ToNumber c pre)) = true
    /\ open (fst (run isURL ToNumber c pre)) = true
    /\ match x with
       | update row patch =>
           (exists response, e = submit_form response)
           /\ isEditing (fst (run isURL ToNumber c pre)) = true
           /\ speciesSchema isURL (values (fst (run isURL ToNumber c pre)))
              = ParseSuccess patch
           /\ row = id (species (fst (run isURL ToNumber c pre)))
       | delete row =>
           (exists response, e = click_yes_delete response)
           /\ isEditing (fst (run isURL ToNumber c pre)) = false
           /\ openDelete (fst (run isURL ToNumber c pre)) = true
           /\ row = id (species (fst (run isURL ToNumber c pre)))
       | _ => True
       end.
Proof.
  intros I R. destruct (run_effect_origin x events c I) as (pre & e & post & E & S).
  exists pre, e, post. split; [exact E|].
  destruct x as [row patch|row| |t]; try discriminate.
  - apply step_update_origin in S as (Ev & B & P & W).
    destruct (rendered_owner_open _ (or_introl B)) as [O1 O2].
    repeat split; auto.
    unfold edit_buttons_rendered in B. apply andb_prop in B as [_ B]. exact B.
  - apply step_delete_origin in S as (Ev & B & W).
    destruct (rendered_owner_open _ (or_intror B)) as [O1 O2].
    unfold delete_buttons_rendered, view_buttons_rendered in B.
    apply andb_prop in B as [B1 B2]. apply andb_prop in B1 as [_ B1].
    apply negb_true_iff in B1. repeat split; auto.
Qed.

Lemma nullable_transform_normalized (val : option jsstring) :
  normalized_text (nullable_transform val).
Proof.
  destruct val as [s|]; [|exact I]. rewrite nullable_transform_Some.
  destruct (blank s) eqn:B; [exact I|]. simpl. split.
  - rewrite <- isEmpty_trim, trim_idempotent, isEmpty_trim. exact B.
  - apply trim_idempotent.
Qed.

(** X11: every patch that any sequence of events sends to Supabase is
    normalized: the scientific name is not blank and has no white space
    at either end, the common name, the image and the description are
    [null] or such a string, never the empty string, and the population
    is [null] or an integer that is at least 1. *)
Theorem patches_are_well_formed
        (c : Card) (events : list Event) (row : Z) (patch : SpeciesFormValues) :
  In (update row patch) (snd (run isURL ToNumber c events)) ->
  well_formed_patch patch.
Proof.
  intros Hin.
  destruct (run_effect_origin _ events c Hin) as (pre & e & post & _ & S).
  clear Hin. apply step_update_origin in S as (_ & _ & P & _).
  pose proof (speciesSchema_success isURL _ P) as (Hs & _ & _ & Hp & _).
  apply parse_total_population_Valid in Hp as Hp'.
  rewrite (speciesSchema_normalizes isURL _ P) in *. simpl in *.
  set (v := values (fst (run isURL ToNumber c pre))) in *.
  unfold well_formed_patch. simpl.
  assert (B : blank (scientific_name v) = false).
  { destruct (blank (scientific_name v)) eqn:B; [|reflexivity].
    rewrite (parse_scientific_name_blank _ B) in Hs. discriminate. }
  split; [rewrite <- isEmpty_trim, trim_idempotent, isEmpty_trim; exact B|].
  split; [apply trim_idempotent|].
  repeat (split; [apply nullable_transform_normalized|]).
  destruct (total_population v) as [n|]; [|exact I].
  clear - Hp. simpl in Hp.
  destruct n as [| |m e]; try discriminate.
  destruct (isInteger (Finite m e) && gt0 (Finite m e) && ge1 (Finite m e))
    eqn:A; [|discriminate].
  apply andb_prop in A as [A _]. apply andb_prop in A as [A1 A2].
  simpl in *. apply Z.ltb_lt in A2.
  destruct (0 <=? e)%Z eqn:E.
  - exists (m * 2 ^ e)%Z. split; [|reflexivity]. apply Z.leb_le in E.
    assert (0 < 2 ^ e)%Z by (apply Z.pow_pos_nonneg; lia). nia.
  - simpl in A1. apply Z.eqb_eq in A1. apply Z.leb_gt in E.
    assert (Q : (0 < 2 ^ (- e))%Z) by (apply Z.pow_pos_nonneg; lia).
    pose proof (Z.div_mod m (2 ^ (- e))%Z ltac:(lia)) as D.
    rewrite A1 in D.
    remember (2 ^ (- e))%Z as p. remember (m / p)%Z as q.
    exists q. split; [nia | lia].
Qed.

End Requests.

Lemma requests_come_from_the_owner_witness :
  exists pre e post,
    Sample.first_session = pre ++ e :: post
    /\ isOwner (fst (Sample.run Sample.viewing pre)) = true
    /\ speciesSchema Sample.isURL (values (fst (Sample.run Sample.viewing pre)))
       = ParseSuccess Sample.aperea_data.
Proof.
  destruct (@requests_come_from_the_owner Sample.isURL Sample.ToNumber
              Sample.viewing Sample.first_session
              (update 7 Sample.aperea_data) (or_introl eq_refl) eq_refl)
    as (pre & e & post & E & O & _ & _ & _ & P & _).
  exists pre, e, post. exact (conj E (conj O P)).
Defined.

Lemma patches_are_well_formed_witness : well_formed_patch Sample.aperea_data.
Proof.
  exact (@patches_are_well_formed Sample.isURL Sample.ToNumber
           Sample.viewing Sample.first_session 7 Sample.aperea_data
           (or_introl eq_refl)).
Defined.

(** *** Toasts, dialogs and props *)

Section Bookkeeping.

Variable isURL : jsstring -> bool.
Variable ToNumber : jsstring -> number.

Lemma count_app (p : Effect -> bool) (l1 l2 : list Effect) :
  count p (l1 ++ l2) = count p l1 + count p l2.
Proof. unfold count. rewrite filter_app, length_app. reflexivity. Qed.

Lemma step_balanced (c : Card) (e : Event) :
  balanced (snd (step isURL ToNumber c e)).
Proof.
  unfold balanced, count.
  destruct e; simpl; unfold guarded;
    try match goal with
        | |- context [if ?b then _ else _] => destruct b
        end; simpl; try (repeat split; auto; fail).
  unfold handleSubmit.
  destruct (speciesSchema isURL (values c)); [destruct response|];
    simpl; repeat split; auto.
Qed.

(** X12: over any sequence of events every request sent to Supabase is
    answered by exactly one toast and no toast comes without a request;
    the router is refreshed exactly as often as a toast of the default
    variant is shown; and a destructive toast can only answer an update. *)
Theorem every_request_is_answered_by_one_toast
        (c : Card) (events : list Event) :
  count is_request (snd (run isURL ToNumber c events))
  = count is_any_toast (snd (run isURL ToNumber c events))
  /\ count is_refresh (snd (run isURL ToNumber c events))
     = count (is_toast default) (snd (run isURL ToNumber c events))
  /\ count is_any_toast (snd (run isURL ToNumber c events))
     = count (is_toast default) (snd (run isURL ToNumber c events))
       + count (is_toast destructive) (snd (run isURL ToNumber c events))
  /\ count is_update (snd (run isURL ToNumber c events))
     + count is_delete (snd (run isURL ToNumber c events))
     = count is_request (snd (run isURL ToNumber c events))
  /\ count (is_toast destructive) (snd (run isURL ToNumber c events))
     <= count is_update (snd (run isURL ToNumber c events)).
Proof.
  change (balanced (snd (run isURL ToNumber c events))).
  revert c. induction events as [|e events IH]; intros c.
  - unfold balanced. simpl. repeat split; auto.
  - rewrite run_cons. cbn [snd].
    pose proof (step_balanced c e) as (A1 & A2 & A3 & A4 & A5).
    pose proof (IH (fst (step isURL ToNumber c e))) as (B1 & B2 & B3 & B4 & B5).
    unfold balanced. rewrite !count_app. repeat split; lia.
Qed.

Lemma happen_closed (m : Mounted) (h : Happening) :
  open (card m) = false ->
  viewer_without_opening h = true ->
  happen isURL ToNumber m h = (m, []).
Proof.
  intros O V. destruct m as [c pending]. simpl in O.
  destruct h as [e| | |i response]; simpl in *; try discriminate.
  - apply negb_true_iff in V.
    assert (S : step isURL ToNumber c e = (c, [])).
    { destruct e; simpl in V; try discriminate; simpl;
        unfold guarded, inputs_editable, delete_buttons_rendered,
          view_buttons_rendered, edit_buttons_rendered;
        rewrite O; reflexivity. }
    rewrite S. reflexivity.
  - unfold edit_buttons_rendered. rewrite O. reflexivity.
  - unfold delete_buttons_rendered, view_buttons_rendered. rewrite O.
    reflexivity.
Qed.

(** X13: while the Learn More dialog is closed nothing the viewer does,
    short of opening it, changes the card or emits an effect, whoever the
    viewer is and whatever mode the card was left in. The answer to an
    update that is still in flight is another matter: the rest of
    [onSubmit] runs on the closed card, turns edit mode off, resets the
    form to the data that was sent, refreshes and toasts. *)
Theorem closed_card_ignores_the_viewer (m : Mounted) (hs : list Happening) :
  open (card m) = false ->
  (forallb viewer_without_opening hs = true ->
   happenings isURL ToNumber m hs = (m, []))
  /\ (forall i data,
         nth_error (in_flight m) i = Some (awaiting_update data) ->
         happen isURL ToNumber m (answered i success)
         = ({| card := form_reset data (setIsEditing false (card m));
               in_flight := remove_nth i (in_flight m) |},
            [refresh;
             toast {| title := lit "Profile updated successfully!";
                      toast_description := None;
                      variant := default |}])
         /\ open (card (fst (happen isURL ToNumber m (answered i success))))
            = false).
Proof.
  intros O. split.
  - induction hs as [|h hs IH]; intros F; [reflexivity|].
    simpl in F. apply andb_prop in F as [Fh F].
    rewrite happenings_cons, (happen_closed m h O Fh). cbn [fst snd].
    rewrite (IH F). reflexivity.
  - intros i data N. simpl. unfold resume. rewrite N. simpl.
    split; [reflexivity | exact O].
Qed.

Lemma step_props (c : Card) (e : Event) :
  sessionId (fst (step isURL ToNumber c e)) = sessionId c
  /\ (is_rerender e = false ->
      species (fst (step isURL ToNumber c e)) = species c).
Proof.
  destruct e; simpl; unfold guarded;
    try match goal with
        | |- context [if ?b then _ else _] => destruct b
        end; simpl; auto.
  - unfold handleSubmit.
    destruct (speciesSchema isURL (values c)); [destruct response|];
      simpl; auto.
  - split; [reflexivity | discriminate].
Qed.

(** X14: the card never writes to its props: through any sequence of
    events the viewer's [sessionId] stays what it was at the start, and
    the [species] record, with its identifier and its author, is replaced
    only when the parent renders the card again. *)
Theorem props_are_read_only (c : Card) (events : list Event) :
  sessionId (fst (run isURL ToNumber c events)) = sessionId c
  /\ (forallb (fun e => negb (is_rerender e)) events = true ->
      species (fst (run isURL ToNumber c events)) = species c).
Proof.
  revert c. induction events as [|e events IH]; intros c.
  - simpl. auto.
  - rewrite run_cons. cbn [fst].
    destruct (step_props c e) as [S1 S2].
    destruct (IH (fst (step isURL ToNumber c e))) as [I1 I2].
    split; [rewrite I1; exact S1|].
    simpl. intros F. apply andb_prop in F as [Fe F].
    apply negb_true_iff in Fe. rewrite (I2 F). apply S2. exact Fe.
Qed.

End Bookkeeping.

Lemma closed_card_ignores_the_viewer_witness :
  Interleaved.happenings Interleaved.closed_while_awaiting
    [at_once click_cancel; press_update_species;
     at_once (input (change_image [])); press_yes_delete;
     at_once (submit_form success)]
  = (Interleaved.closed_while_awaiting, [])
  /\ isEditing (card Interleaved.closed_while_awaiting) = true
  /\ isEditing
       (card (fst (happen Sample.isURL Sample.ToNumber
                     Interleaved.closed_while_awaiting (answered 0 success))))
     = false.
Proof.
  destruct (@closed_card_ignores_the_viewer Sample.isURL Sample.ToNumber
              Interleaved.closed_while_awaiting
              [at_once click_cancel; press_update_species;
               at_once (input (change_image [])); press_yes_delete;
               at_once (submit_form success)]
              eq_refl)
    as [A B].
  split; [exact (A eq_refl)|]. split; [reflexivity|].
  rewrite (proj1 (B 0 (defaultValues Sample.guinea_pig) eq_refl)).
  reflexivity.
Defined.

(** *** From a committed patch to the summary *)

Lemma not_blank_not_empty (s : jsstring) : blank s = false -> isEmpty s = false.
Proof. destruct s; [discriminate | reflexivity]. Qed.

(** X15: for a record whose image and description are as the form commits
    them ([null], or not blank and trimmed), the summary renders the image
    exactly when the record has one, the preview is empty exactly when
    there is no description, and a description of at most 150 code units
    is previewed whole, followed by the three dots. *)
Theorem committed_record_summary (sp : Species) :
  normalized_text (species_image sp) ->
  normalized_text (species_description sp) ->
  image_rendered sp = species_image sp
  /\ (description_preview sp = [] <-> species_description sp = None)
  /\ (forall d, species_description sp = Some d ->
                List.length d <= 150 ->
                description_preview sp = d ++ lit "...").
Proof.
  unfold image_rendered, description_preview. intros NI ND.
  split; [|split].
  - destruct (species_image sp) as [src|]; [|reflexivity].
    destruct NI as [B _]. rewrite (not_blank_not_empty src B). reflexivity.
  - destruct (species_description sp) as [d|]; [|tauto].
    destruct ND as [B _]. rewrite (not_blank_not_empty d B). split.
    + intros H. apply app_eq_nil in H as [_ H]. discriminate.
    + discriminate.
  - intros d E L. rewrite E in *. destruct ND as [B T].
    rewrite (not_blank_not_empty d B), firstn_all2 by exact L.
    rewrite T. reflexivity.
Qed.

Lemma committed_record_summary_witness :
  image_rendered
    (Build_Species 7 (lit "u1") (lit "Felis catus") None Animalia None
       (Some (lit "https://example.org/cat.jpg")) (Some (lit "A small cat.")))
  = Some (lit "https://example.org/cat.jpg").
Proof.
  exact (proj1 (@committed_record_summary
                  (Build_Species 7 (lit "u1") (lit "Felis catus") None
                     Animalia None
                     (Some (lit "https://example.org/cat.jpg"))
                     (Some (lit "A small cat.")))
                  (conj eq_refl eq_refl) (conj eq_refl eq_refl))).
Defined.

(** *** Events that reach no collaborator *)

(** X16: only the submit of the form and Yes, delete ever reach Supabase,
    the router or the toaster: a sequence of any other events (opening and
    closing the dialogs, Edit, Cancel, No, cancel, typing, re-renders)
    emits no effect at all. *)
Theorem other_events_emit_nothing
        (isURL : jsstring -> bool) (ToNumber : jsstring -> number)
        (c : Card) (events : list Event) :
  forallb (fun e => negb (awaits_supabase e)) events = true ->
  snd (run isURL ToNumber c events) = [].
Proof.
  revert c. induction events as [|e events IH]; intros c F; [reflexivity|].
  simpl in F. apply andb_prop in F as [Fe F]. apply negb_true_iff in Fe.
  rewrite run_cons. cbn [snd]. rewrite (IH _ F), app_nil_r.
  destruct e; simpl in Fe; try discriminate; simpl; unfold guarded;
    try match goal with
        | |- context [if ?b then _ else _] => destruct b
        end; reflexivity.
Qed.

Lemma other_events_emit_nothing_witness :
  snd (Sample.run Sample.viewing
         [click_edit_species; input (change_scientific_name (lit "Cavia"));
          click_cancel; onOpenDeleteChange true; click_no_cancel;
          parent_rerender Sample.guinea_pig; onOpenChange false])
  = [].
Proof.
  exact (@other_events_emit_nothing Sample.isURL Sample.ToNumber Sample.viewing
           [click_edit_species; input (change_scientific_name (lit "Cavia"));
            click_cancel; onOpenDeleteChange true; click_no_cancel;
            parent_rerender Sample.guinea_pig; onOpenChange false]
           eq_refl).
Defined.
